(** * ArchiCAD georeferencing tool: the resolver, reader, writer and
      transformer of [apps/georef_tool], embedded and verified.

    Python values are modelled as follows.
    - [str] is a Rocq [string]; a character is its code point, which Rocq's
      [ascii] holds up to 255.  The character classes of [re] and of
      [str.strip] below are Python's Unicode classes on that range.
    - [float] is the kernel's binary64 [float] ([PrimFloat]).
    - [int] is [Z].
    - an exception is an explicit error result; [try/except] around code that
      assigns to an object is a state-and-error monad over that object. *)

From Stdlib Require Import ZArith NArith List Bool Ascii String Lia.
From Stdlib Require Import DecimalString DecimalPos DecimalZ Floats.
From Stdlib Require Import Reals Lra.
Import ListNotations.

Local Open Scope string_scope.
Local Open Scope bool_scope.

(* ------------------------------------------------------------------ *)
(** ** Text: characters, truthiness, [str.strip] *)

Module Text.

Definition code (c : ascii) : N := N_of_ascii c.

Definition in_range (lo hi : ascii) (c : ascii) : bool :=
  (code lo <=? code c)%N && (code c <=? code hi)%N.

Definition one_of (l : list N) (c : ascii) : bool :=
  existsb (N.eqb (code c)) l.

(** [\d]: the decimal digits. *)
Definition is_digit : ascii -> bool := in_range "0" "9".

(** [\s], which is also what [str.strip()] removes: TAB LF VT FF CR, the
    separators FS GS RS US, SPACE, NEL and NO-BREAK SPACE. *)
Definition is_space (c : ascii) : bool :=
  ((9 <=? code c) && (code c <=? 13))%N
  || ((28 <=? code c) && (code c <=? 32))%N
  || one_of [133; 160]%N c.

Definition is_upper : ascii -> bool := in_range "A" "Z".
Definition is_lower : ascii -> bool := in_range "a" "z".
Definition is_alpha (c : ascii) : bool := is_upper c || is_lower c.

(** [\w]: alphanumeric characters and the underscore. *)
Definition is_word (c : ascii) : bool :=
  is_digit c || is_alpha c || one_of [95]%N c
  || one_of [170; 178; 179; 181; 185; 186; 188; 189; 190]%N c
  || ((192 <=? code c) && (code c <=? 214))%N
  || ((216 <=? code c) && (code c <=? 246))%N
  || ((248 <=? code c) && (code c <=? 255))%N.

Definition to_lower (c : ascii) : ascii :=
  if is_upper c then ascii_of_N (code c + 32) else c.

Definition to_upper (c : ascii) : ascii :=
  if is_lower c then ascii_of_N (code c - 32) else c.

(** A Python string is true when it is not empty. *)
Definition truthy (s : string) : bool :=
  match s with EmptyString => false | String _ _ => true end.

(** [a or b] on strings. *)
Definition or_else (a b : string) : string := if truthy a then a else b.

Fixpoint lstrip (s : string) : string :=
  match s with
  | String c s' => if is_space c then lstrip s' else s
  | EmptyString => EmptyString
  end.

Fixpoint rstrip (s : string) : string :=
  match s with
  | String c s' =>
      match rstrip s' with
      | EmptyString => if is_space c then EmptyString else String c EmptyString
      | r => String c r
      end
  | EmptyString => EmptyString
  end.

Definition strip (s : string) : string := rstrip (lstrip s).

(** [f"{n}"] for an [int]. *)
Definition str_of_int (n : Z) : string := NilZero.string_of_int (Z.to_int n).

End Text.

(* ------------------------------------------------------------------ *)
(** ** The fragment of [re] the resolver uses

    A pattern is a sequence of items; every repetition in the two patterns
    of [_extract_zone] is a greedy repetition of a one-character class, so
    that is the only repetition modelled.  Matching is Python's: backtracking
    in priority order, [search] taking the leftmost start. *)

Module Re.

Inductive item : Type :=
| Chr (p : ascii -> bool)                         (* one character of a class *)
| Rep (p : ascii -> bool) (lo : nat) (hi : option nat)
                                                  (* p{lo,hi}, greedy; no hi: unbounded *)
| WordBoundary                                    (* \b *)
| GroupOpen                                       (* ( of group 1 *)
| GroupClose.                                     (* ) of group 1 *)

Definition pattern := list item.

(** re.IGNORECASE on a class of ASCII letters: a character matches when it,
    its lower case or its upper case is in the class. *)
Definition ignorecase (p : ascii -> bool) (c : ascii) : bool :=
  p c || p (Text.to_lower c) || p (Text.to_upper c).

Definition lit (a : ascii) (c : ascii) : bool := Ascii.eqb a c.

(** Group 1 while matching: whether it is open, and its text so far
    (most recent character first). *)
Record capture : Type := { recording : bool; text_rev : list ascii }.

Definition no_capture : capture := {| recording := false; text_rev := [] |}.

Definition feed (g : capture) (c : ascii) : capture :=
  if recording g then {| recording := true; text_rev := c :: text_rev g |} else g.

Definition group1 (g : capture) : string := string_of_list_ascii (rev (text_rev g)).

Definition word_at (o : option ascii) : bool :=
  match o with Some c => Text.is_word c | None => false end.

(** [\b] holds between [prev] and the rest [s] when exactly one side is a
    word character; the ends of the string count as non-word. *)
Definition at_boundary (prev : option ascii) (s : list ascii) : bool :=
  xorb (word_at prev) (word_at (hd_error s)).

Definition may_repeat (hi : option nat) : bool :=
  match hi with Some 0 => false | _ => true end.

(** The greedy repetition [p{lo,hi}] followed by the rest of the pattern
    [k]: one more character is tried first, the rest of the pattern at the
    current position when that fails and [lo] repetitions are done. *)
Fixpoint repeat (k : option ascii -> list ascii -> capture -> option string)
                (p : ascii -> bool) (lo : nat) (hi : option nat)
                (prev : option ascii) (s : list ascii) (g : capture)
                {struct s} : option string :=
  let stop := match lo with
              | O => k prev s g
              | S _ => None
              end in
  match s with
  | c :: s' =>
      if p c && may_repeat hi then
        match repeat k p (Nat.pred lo) (option_map Nat.pred hi) (Some c) s' (feed g c) with
        | Some r => Some r
        | None => stop
        end
      else stop
  | [] => stop
  end.

(** Match [its] at the current position: [prev] is the character before it,
    [s] the rest of the subject.  The result is group 1 of the first match in
    priority order. *)
Fixpoint match_here (its : pattern) (prev : option ascii) (s : list ascii)
                    (g : capture) {struct its} : option string :=
  match its with
  | [] => Some (group1 g)
  | Chr p :: rest =>
      match s with
      | c :: s' => if p c then match_here rest (Some c) s' (feed g c) else None
      | [] => None
      end
  | Rep p lo hi :: rest => repeat (match_here rest) p lo hi prev s g
  | WordBoundary :: rest =>
      if at_boundary prev s then match_here rest prev s g else None
  | GroupOpen :: rest =>
      match_here rest prev s {| recording := true; text_rev := [] |}
  | GroupClose :: rest =>
      match_here rest prev s {| recording := false; text_rev := text_rev g |}
  end.

(** [re.search(pattern, s)] followed by [.group(1)]: [None] when there is no
    match anywhere. *)
Fixpoint search_from (its : pattern) (prev : option ascii) (s : list ascii)
  : option string :=
  match match_here its prev s no_capture with
  | Some r => Some r
  | None =>
      match s with
      | c :: s' => search_from its (Some c) s'
      | [] => None
      end
  end.

Definition search (its : pattern) (s : string) : option string :=
  search_from its None (list_ascii_of_string s).

End Re.

(* ------------------------------------------------------------------ *)
(** ** Outcomes of calls that may raise *)

(** What evaluating a Python expression gives: an exception or a value. *)
Inductive outcome (A : Type) : Type :=
| Raises
| Returns (a : A).
Arguments Raises {A}.
Arguments Returns {A} a.

(** What a function that raises [E] or returns [A] gives its caller. *)
Inductive result (E A : Type) : Type :=
| Err (e : E)
| Ok (a : A).
Arguments Err {E A} e.
Arguments Ok {E A} a.

(** [x or ""] where [x] is a string or [None]. *)
Definition str_or_empty (x : option string) : string :=
  match x with Some s => Text.or_else s "" | None => "" end.

(* ------------------------------------------------------------------ *)
(** ** crs_metadata.py *)

Module CrsMetadata.

Import Re.

Record CRSMetadata : Type := {
  crs_name : string;
  description : string;
  geodetic_datum : string;
  vertical_datum : string;
  map_projection : string;
  map_zone : string
}.

(** [CRSMetadata()] *)
Definition empty_metadata : CRSMetadata :=
  {| crs_name := ""; description := ""; geodetic_datum := "";
     vertical_datum := ""; map_projection := ""; map_zone := "" |}.

(** *** Code that assigns to a [meta] object and may raise

    A computation takes the object and gives it back as it is when the
    computation ends, whether by returning or by raising: an assignment made
    before an exception stays made. *)
Definition M (A : Type) : Type := CRSMetadata -> outcome A * CRSMetadata.

Definition ret {A} (a : A) : M A := fun m => (Returns a, m).

Definition bind {A B} (c : M A) (k : A -> M B) : M B :=
  fun m => match c m with
           | (Returns a, m') => k a m'
           | (Raises, m') => (Raises, m')
           end.

Notation "x <- c ;; k" := (bind c (fun x => k))
  (at level 61, c at next level, right associativity).
Notation "c ;;; k" := (bind c (fun _ => k))
  (at level 61, right associativity).

(** An expression evaluated for its value: the object is not touched. *)
Definition eval {A} (o : outcome A) : M A := fun m => (o, m).

(** Reading the object. *)
Definition get {A} (f : CRSMetadata -> A) : M A := fun m => (Returns (f m), m).

(** [try: body except Exception: pass] *)
Definition try_pass (body : M unit) : M unit :=
  fun m => (Returns tt, snd (body m)).

Definition set_crs_name (v : string) : M unit := fun m =>
  (Returns tt,
   {| crs_name := v; description := description m;
      geodetic_datum := geodetic_datum m; vertical_datum := vertical_datum m;
      map_projection := map_projection m; map_zone := map_zone m |}).

Definition set_description (v : string) : M unit := fun m =>
  (Returns tt,
   {| crs_name := crs_name m; description := v;
      geodetic_datum := geodetic_datum m; vertical_datum := vertical_datum m;
      map_projection := map_projection m; map_zone := map_zone m |}).

Definition set_geodetic_datum (v : string) : M unit := fun m =>
  (Returns tt,
   {| crs_name := crs_name m; description := description m;
      geodetic_datum := v; vertical_datum := vertical_datum m;
      map_projection := map_projection m; map_zone := map_zone m |}).

Definition set_map_projection (v : string) : M unit := fun m =>
  (Returns tt,
   {| crs_name := crs_name m; description := description m;
      geodetic_datum := geodetic_datum m; vertical_datum := vertical_datum m;
      map_projection := v; map_zone := map_zone m |}).

Definition set_map_zone (v : string) : M unit := fun m =>
  (Returns tt,
   {| crs_name := crs_name m; description := description m;
      geodetic_datum := geodetic_datum m; vertical_datum := vertical_datum m;
      map_projection := map_projection m; map_zone := v |}).

(** The object after running [c] on it. *)
Definition exec {A} (c : M A) (m : CRSMetadata) : CRSMetadata := snd (c m).

(** *** The zone heuristic *)

(** r"\bzone\s*([\d]+[A-Z]?)" with re.IGNORECASE *)
Definition zone_pattern : pattern :=
  [ WordBoundary;
    Chr (ignorecase (lit "z")); Chr (ignorecase (lit "o"));
    Chr (ignorecase (lit "n")); Chr (ignorecase (lit "e"));
    Rep Text.is_space 0 None;
    GroupOpen;
    Rep Text.is_digit 1 None;
    Rep (ignorecase Text.is_upper) 0 (Some 1);
    GroupClose ].

(** r"[A-Za-z]+(\d{1,3})[A-Za-z]" *)
Definition embedded_pattern : pattern :=
  [ Rep Text.is_alpha 1 None;
    GroupOpen;
    Rep Text.is_digit 1 (Some 3);
    GroupClose;
    Chr Text.is_alpha ].

(** [_extract_zone(op_name, crs_name)] *)
Definition _extract_zone (op_name crs_name : string) : string :=
  match search zone_pattern op_name with
  | Some z => z
  | None =>
  match search embedded_pattern op_name with
  | Some z => z
  | None =>
  match search zone_pattern crs_name with
  | Some z => z
  | None =>
  match search embedded_pattern crs_name with
  | Some z => z
  | None => ""
  end end end end.

(** *** The local geodetic database (pyproj), a collaborator

    The description object [CRS.from_epsg] returns.  [name] and [remarks] are
    data of the object; [remarks] read through [getattr(.., None)] is [None]
    when absent.  The sub-objects are computed on access: an access either
    raises or returns the sub-object or [None] ([getattr]'s default when the
    attribute is missing).  Objects are true in a condition. *)
Record Datum : Type := {
  datum_name : outcome (option string)
}.

Record GeodeticCRS : Type := {
  geodetic_crs_datum : outcome (option Datum)
}.

Record CoordinateOperation : Type := {
  method_name : outcome (option string);
  operation_name : outcome (option string)
}.

Record CRS : Type := {
  name : string;
  remarks : option string;
  geodetic_crs : outcome (option GeodeticCRS);
  datum : outcome (option Datum);
  coordinate_operation : outcome (option CoordinateOperation)
}.

(** *** The network metadata service (epsg.io), a collaborator

    The response to the GET request: [json()] raises or returns the document;
    the document's [results] entry and a result's [name] entry may be
    missing; a [name] that is there is a string. *)
Record EpsgResult : Type := {
  result_name : option string
}.

Record EpsgDocument : Type := {
  results : option (list EpsgResult)
}.

Record Response : Type := {
  status_code : Z;
  json : outcome EpsgDocument
}.

(** [_EPSG_IO_BASE.format(code=code)] *)
Definition epsg_io_url (code : Z) : string :=
  "https://epsg.io/" ++ Text.str_of_int code ++ ".json".

Inductive error : Type :=
| ValueError (text : string).

Section Resolver.

(** [pyproj.CRS.from_epsg], with a failing [import pyproj] counted as a
    raise. *)
Variable CRS_from_epsg : Z -> outcome CRS.

(** [requests.get(url, timeout=6)], with a failing [import requests], an
    unreachable host and a timeout counted as a raise. *)
Variable requests_get : string -> outcome Response.

(** The first [try] block of [_from_pyproj]: the geodetic datum. *)
Definition datum_block (crs : CRS) : M unit :=
  g <- eval (geodetic_crs crs) ;;
  d <- eval (match g with
             | Some geodetic => geodetic_crs_datum geodetic
             | None => datum crs
             end) ;;
  match d with
  | Some dt =>
      n <- eval (datum_name dt) ;;
      set_geodetic_datum (str_or_empty n)
  | None => ret tt
  end.

(** The second [try] block of [_from_pyproj]: map projection and zone. *)
Definition operation_block (crs : CRS) : M unit :=
  o <- eval (coordinate_operation crs) ;;
  match o with
  | Some op =>
      mn <- eval (method_name op) ;;
      set_map_projection (str_or_empty mn) ;;;
      on <- eval (operation_name op) ;;
      set_map_zone (_extract_zone (str_or_empty on) (name crs))
  | None => ret tt
  end.

(** [_from_pyproj(code)] *)
Definition _from_pyproj (code : Z) : CRSMetadata :=
  match CRS_from_epsg code with
  | Raises => empty_metadata
  | Returns crs =>
      exec (set_crs_name (Text.or_else (name crs) "") ;;;
            set_description
              (Text.or_else
                 (Text.or_else (Text.strip (str_or_empty (remarks crs))) (name crs))
                 "") ;;;
            try_pass (datum_block crs) ;;;
            try_pass (operation_block crs))
           empty_metadata
  end.

(** [r.get("name", "")] *)
Definition name_of (r : EpsgResult) : string :=
  match result_name r with Some n => n | None => "" end.

(** The body of the [try] of [_fill_from_epsg_io]. *)
Definition epsg_io_block (code : Z) : M unit :=
  resp <- eval (requests_get (epsg_io_url code)) ;;
  if negb (status_code resp =? 200)%Z then ret tt else
  data <- eval (json resp) ;;
  match (match results data with Some l => l | None => [] end) with
  | [] => ret tt
  | r :: _ =>
      cn <- get crs_name ;;
      (if negb (Text.truthy cn) then set_crs_name (name_of r) else ret tt) ;;;
      ds <- get description ;;
      (if negb (Text.truthy ds) then set_description (name_of r) else ret tt) ;;;
      mz <- get map_zone ;;
      (if negb (Text.truthy mz) then set_map_zone (_extract_zone (name_of r) "")
       else ret tt)
  end.

(** [_fill_from_epsg_io(code, meta)]: the object after the call. *)
Definition _fill_from_epsg_io (code : Z) (meta : CRSMetadata) : CRSMetadata :=
  exec (try_pass (epsg_io_block code)) meta.

(** [from_epsg(code)] *)
Definition from_epsg (code : Z) : result error CRSMetadata :=
  let meta := _from_pyproj code in
  let meta :=
    if negb (Text.truthy (crs_name meta)) || negb (Text.truthy (map_zone meta))
    then _fill_from_epsg_io code meta
    else meta in
  if negb (Text.truthy (crs_name meta))
  then Err (ValueError ("EPSG:" ++ Text.str_of_int code
                        ++ " could not be resolved by pyproj or epsg.io"))
  else Ok meta.

End Resolver.

End CrsMetadata.

(* ------------------------------------------------------------------ *)
(** ** Python values on the wire, and the built-ins applied to them *)

Module Py.

(** A value of a parsed gateway response or of a payload.  A [dict] is its
    items in order; its keys are distinct, as in any Python [dict]. *)
#[warnings="-register-all"] Inductive pyval : Type :=
| PyNone
| PyBool (b : bool)
| PyInt (z : Z)
| PyFloat (f : float)
| PyStr (s : string)
| PyList (l : list pyval)
| PyDict (d : list (string * pyval)).

(** The exceptions the interpreter itself raises in the code below. *)
Inductive builtin_error : Type :=
| TypeError
| ValueError
| AttributeError
| OverflowError.

(** [bool(v)] *)
Definition truthy (v : pyval) : bool :=
  match v with
  | PyNone => false
  | PyBool b => b
  | PyInt z => negb (z =? 0)%Z
  | PyFloat f => negb (f =? 0)%float
  | PyStr s => Text.truthy s
  | PyList l => match l with [] => false | _ :: _ => true end
  | PyDict d => match d with [] => false | _ :: _ => true end
  end.

(** [v or {}] *)
Definition or_empty_dict (v : pyval) : pyval :=
  if truthy v then v else PyDict [].

Fixpoint lookup (k : string) (d : list (string * pyval)) : option pyval :=
  match d with
  | [] => None
  | (k', v) :: d' => if String.eqb k k' then Some v else lookup k d'
  end.

(** [v.get(k, default)]: only a [dict] has [get]. *)
Definition get (v : pyval) (k : string) (default : pyval)
  : result builtin_error pyval :=
  match v with
  | PyDict d => Ok (match lookup k d with Some x => x | None => default end)
  | _ => Err AttributeError
  end.

(** [float(n)] for an [int]: the nearest binary64 value, ties to even;
    [OverflowError] when that is out of range. *)
Definition float_of_int (z : Z) : result builtin_error float :=
  match binary_normalize prec emax z 0 false with
  | S754_infinity _ => Err OverflowError
  | sf => Ok (SF2Prim sf)
  end.

Section Float.

(** [float(s)] for a [str]: Python's parser of float literals, [None] where
    it raises [ValueError]. *)
Variable float_of_str : string -> option float.

(** [float(v)] *)
Definition float_of (v : pyval) : result builtin_error float :=
  match v with
  | PyFloat f => Ok f
  | PyInt z => float_of_int z
  | PyBool b => Ok (if b then 1 else 0)%float
  | PyStr s =>
      match float_of_str s with
      | Some f => Ok f
      | None => Err ValueError
      end
  | PyNone | PyList _ | PyDict _ => Err TypeError
  end.

End Float.

(** [math.pi] *)
Definition pi : float := 0x1.921fb54442d18p+1%float.

(** CPython's [math.radians(x)] is [x * (pi / 180.0)] and [math.degrees(x)]
    is [x * (180.0 / pi)], in binary64. *)
Definition degToRad : float := (pi / 180)%float.
Definition radToDeg : float := (180 / pi)%float.
Definition radians (x : float) : float := (x * degToRad)%float.
Definition degrees (x : float) : float := (x * radToDeg)%float.

(** The literal [1e-9]: the binary64 value nearest to it. *)
Definition tolerance : float := 0x1.12e0be826d695p-30%float.

End Py.

(* ------------------------------------------------------------------ *)
(** ** models.py *)

Module Models.

Import Py.

Record ProjectLocation : Type := {
  longitude : float;
  latitude : float;
  altitude : float;
  north_deg : float
}.

Record SurveyPointPosition : Type := {
  eastings : float;
  northings : float;
  elevation : float
}.

(** The reader stores what the response holds under the six keys as it is,
    so a field holds a Python value; it is a [str] in every object the
    defaults, the user interface and a well-formed response produce. *)
Record GeoReferencingParameters : Type := {
  crs_name : pyval;
  description : pyval;
  geodetic_datum : pyval;
  vertical_datum : pyval;
  map_projection : pyval;
  map_zone : pyval
}.

Record GeorefData : Type := {
  project_location : ProjectLocation;
  survey_point : SurveyPointPosition;
  geo_ref_params : GeoReferencingParameters
}.

(** [ProjectLocation()] *)
Definition default_project_location : ProjectLocation :=
  {| longitude := 0; latitude := 0; altitude := 0; north_deg := 0 |}%float.

(** [SurveyPointPosition()] *)
Definition default_survey_point : SurveyPointPosition :=
  {| eastings := 0; northings := 0; elevation := 0 |}%float.

(** [GeoReferencingParameters()] *)
Definition default_geo_ref_params : GeoReferencingParameters :=
  {| crs_name := PyStr ""; description := PyStr ""; geodetic_datum := PyStr "";
     vertical_datum := PyStr ""; map_projection := PyStr "";
     map_zone := PyStr "" |}.

(** [GeorefData()] *)
Definition default_georef_data : GeorefData :=
  {| project_location := default_project_location;
     survey_point := default_survey_point;
     geo_ref_params := default_geo_ref_params |}.

End Models.

(* ------------------------------------------------------------------ *)
(** ** The addon gateway, a collaborator *)

Module Gateway.

Import Py.

Section Gateway.

(** The exceptions the gateway raises. *)
Variable E : Type.

(** [tapir_fn(command, parameters=None)] *)
Definition tapir : Type := string -> option pyval -> result E pyval.

(** What [read_geolocation] and [write_geolocation] raise. *)
Inductive error : Type :=
| RuntimeError (text : string) (cause : E)  (* raise RuntimeError(text) from cause *)
| Uncaught (b : builtin_error).             (* an exception no handler is there for *)

End Gateway.

Arguments RuntimeError {E} text cause.
Arguments Uncaught {E} b.

End Gateway.

(* ------------------------------------------------------------------ *)
(** ** georef_reader.py *)

Module GeorefReader.

Import Py Models Gateway.

Section Reader.

Variable E : Type.

(** [str(exc)], which [f"{exc}"] formats. *)
Variable exc_str : E -> string.

Variable float_of_str : string -> option float.

(** An exception of the interpreter raised after the [try] block is not
    handled and leaves the function. *)
Definition uncaught {A} (r : result builtin_error A) : result (error E) A :=
  match r with
  | Ok a => Ok a
  | Err b => Err (Uncaught b)
  end.

Definition bind {A B} (r : result (error E) A) (k : A -> result (error E) B)
  : result (error E) B :=
  match r with
  | Ok a => k a
  | Err e => Err e
  end.

Notation "x <- r ;; k" := (bind r (fun x => k))
  (at level 61, r at next level, right associativity).

Definition get_float (d : pyval) (k : string) : result builtin_error float :=
  match get d k (PyFloat 0) with
  | Ok v => float_of float_of_str v
  | Err b => Err b
  end.

Definition with_project_location (data : GeorefData) (pl : ProjectLocation)
  : GeorefData :=
  {| project_location := pl;
     survey_point := survey_point data;
     geo_ref_params := geo_ref_params data |}.

Definition with_survey_point (data : GeorefData) (sp : SurveyPointPosition)
  : GeorefData :=
  {| project_location := project_location data;
     survey_point := sp;
     geo_ref_params := geo_ref_params data |}.

Definition with_geo_ref_params (data : GeorefData) (gp : GeoReferencingParameters)
  : GeorefData :=
  {| project_location := project_location data;
     survey_point := survey_point data;
     geo_ref_params := gp |}.

(** The [if pl:] block. *)
Definition read_project_location (pl : pyval) (data : GeorefData)
  : result (error E) GeorefData :=
  if truthy pl then
    lon <- uncaught (get_float pl "longitude") ;;
    lat <- uncaught (get_float pl "latitude") ;;
    alt <- uncaught (get_float pl "altitude") ;;
    north <- uncaught (get_float pl "north") ;;
    Ok (with_project_location data
          {| longitude := lon; latitude := lat; altitude := alt;
             north_deg := degrees north |})
  else Ok data.

(** The [if sp:] block. *)
Definition read_survey_point (sp : pyval) (data : GeorefData)
  : result (error E) GeorefData :=
  if truthy sp then
    pos0 <- uncaught (get sp "position" PyNone) ;;
    let pos := or_empty_dict pos0 in
    e <- uncaught (get_float pos "eastings") ;;
    n <- uncaught (get_float pos "northings") ;;
    el <- uncaught (get_float pos "elevation") ;;
    let data := with_survey_point data
                  {| eastings := e; northings := n; elevation := el |} in
    gp0 <- uncaught (get sp "geoReferencingParameters" PyNone) ;;
    let gp := or_empty_dict gp0 in
    cn <- uncaught (get gp "crsName" (PyStr "")) ;;
    ds <- uncaught (get gp "description" (PyStr "")) ;;
    gd <- uncaught (get gp "geodeticDatum" (PyStr "")) ;;
    vd <- uncaught (get gp "verticalDatum" (PyStr "")) ;;
    mp <- uncaught (get gp "mapProjection" (PyStr "")) ;;
    mz <- uncaught (get gp "mapZone" (PyStr "")) ;;
    Ok (with_geo_ref_params data
          {| crs_name := cn; description := ds; geodetic_datum := gd;
             vertical_datum := vd; map_projection := mp; map_zone := mz |})
  else Ok data.

(** [read_geolocation(tapir_fn)] *)
Definition read_geolocation (tapir_fn : tapir E) : result (error E) GeorefData :=
  match tapir_fn "GetGeoLocation" None with
  | Err exc =>
      Err (RuntimeError ("Tapir GetGeoLocation failed: " ++ exc_str exc) exc)
  | Ok response =>
      let data := default_georef_data in
      pl0 <- uncaught (get response "projectLocation" PyNone) ;;
      data <- read_project_location (or_empty_dict pl0) data ;;
      sp0 <- uncaught (get response "surveyPoint" PyNone) ;;
      read_survey_point (or_empty_dict sp0) data
  end.

End Reader.

End GeorefReader.

(* ------------------------------------------------------------------ *)
(** ** georef_writer.py *)

Module GeorefWriter.

Import Py Models Gateway.

(** [build_payload(data)] *)
Definition build_payload (data : GeorefData) : pyval :=
  PyDict
    [ ("projectLocation",
       PyDict
         [ ("longitude", PyFloat (longitude (project_location data)));
           ("latitude", PyFloat (latitude (project_location data)));
           ("altitude", PyFloat (altitude (project_location data)));
           ("north", PyFloat (radians (north_deg (project_location data)))) ]);
      ("surveyPoint",
       PyDict
         [ ("position",
            PyDict
              [ ("eastings", PyFloat (eastings (survey_point data)));
                ("northings", PyFloat (northings (survey_point data)));
                ("elevation", PyFloat (elevation (survey_point data))) ]);
           ("geoReferencingParameters",
            PyDict
              [ ("crsName", crs_name (geo_ref_params data));
                ("description", description (geo_ref_params data));
                ("geodeticDatum", geodetic_datum (geo_ref_params data));
                ("verticalDatum", vertical_datum (geo_ref_params data));
                ("mapProjection", map_projection (geo_ref_params data));
                ("mapZone", map_zone (geo_ref_params data)) ]) ]) ].

Section Writer.

Variable E : Type.
Variable exc_str : E -> string.

(** [write_geolocation(tapir_fn, data)] *)
Definition write_geolocation (tapir_fn : tapir E) (data : GeorefData)
  : result (error E) pyval :=
  let payload := build_payload data in
  match tapir_fn "SetGeoLocation" (Some payload) with
  | Err exc =>
      Err (RuntimeError ("Tapir SetGeoLocation failed: " ++ exc_str exc) exc)
  | Ok result => Ok result
  end.

End Writer.

End GeorefWriter.

(* ------------------------------------------------------------------ *)
(** ** coord_transformer.py *)

Module CoordTransformer.

Section Transformer.

(** The exceptions pyproj raises. *)
Variable E : Type.

(** A [pyproj.Transformer]: its [transform] called with two and with three
    coordinates. *)
Record Transformer : Type := {
  transform2 : float -> float -> result E (float * float);
  transform3 : float -> float -> float -> result E (float * float * float)
}.

(** [Transformer.from_crs(crs_from, crs_to, always_xy=...)] *)
Variable Transformer_from_crs : string -> string -> bool -> result E Transformer.

Record CoordTransformer : Type := {
  src_epsg : Z;
  dst_epsg : Z;
  _t : Transformer
}.

(** [CoordTransformer(src_epsg, dst_epsg)] *)
Definition __init__ (src dst : Z) : result E CoordTransformer :=
  match Transformer_from_crs ("EPSG:" ++ Text.str_of_int src)
                             ("EPSG:" ++ Text.str_of_int dst) true with
  | Ok t => Ok {| src_epsg := src; dst_epsg := dst; _t := t |}
  | Err e => Err e
  end.

(** The tuple [transform] returns: a pair, or a triple when [z] is given. *)
Inductive coords : Type :=
| XY (x y : float)
| XYZ (x y z : float).

(** [self.transform(x, y, z=None)] *)
Definition transform (self : CoordTransformer) (x y : float) (z : option float)
  : result E coords :=
  match z with
  | Some z =>
      match transform3 (_t self) x y z with
      | Ok (x', y', z') => Ok (XYZ x' y' z')
      | Err e => Err e
      end
  | None =>
      match transform2 (_t self) x y with
      | Ok (x', y') => Ok (XY x' y')
      | Err e => Err e
      end
  end.

(** What [survey_to_wgs84] raises: an exception of pyproj, or the
    [ValueError] of unpacking a tuple that is not a pair. *)
Inductive error : Type :=
| Library (e : E)
| UnpackError.

(** [survey_to_wgs84(eastings, northings, src_epsg)] *)
Definition survey_to_wgs84 (eastings northings : float) (src : Z)
  : result error (float * float) :=
  match __init__ src 4326 with
  | Err e => Err (Library e)
  | Ok t =>
      match transform t eastings northings None with
      | Err e => Err (Library e)
      | Ok (XY lon lat) => Ok (lon, lat)
      | Ok (XYZ _ _ _) => Err UnpackError
      end
  end.

End Transformer.

Arguments transform2 {E} t.
Arguments transform3 {E} t.
Arguments _t {E} c.
Arguments src_epsg {E} c.
Arguments dst_epsg {E} c.
Arguments Library {E} e.
Arguments UnpackError {E}.

End CoordTransformer.

(* ------------------------------------------------------------------ *)
(** ** connection.py *)

Module Connection.

Import Py.

Section Connection.

(** The exceptions the archicad package raises. *)
Variable E : Type.

(** What [types.AddOnCommandId(namespace, name)] makes. *)
Variable Id : Type.

(** [conn.types] and [conn.commands] of the archicad package, and the
    connection that holds them.  [ExecuteAddOnCommand] is given the command
    id and, when it is called with two arguments, the parameters. *)
Record Types : Type := {
  AddOnCommandId : string -> string -> Id
}.

Record Commands : Type := {
  ExecuteAddOnCommand : Id -> option pyval -> result E pyval
}.

Record ACConnection : Type := {
  commands : Commands;
  types : Types
}.

(** [ACConnection.connect()]: it raises, or returns a connection or
    [None]. *)
Variable ACConnection_connect : result E (option ACConnection).

(** The attributes of an [ArchicadConnection]: [self.conn], [self.cmd] and
    [self.types]; [None] is Python's. *)
Record ArchicadConnection : Type := {
  conn : option ACConnection;
  cmd : option Commands;
  self_types : option Types
}.

(** [ArchicadConnection()] *)
Definition __init__ : ArchicadConnection :=
  {| conn := None; cmd := None; self_types := None |}.

(** What the methods raise: [AttributeError] is the interpreter's, for an
    attribute of [None]; [Raised] is an exception of the package that no
    handler caught. *)
Inductive error : Type :=
| ConnectionError (text : string)
| RuntimeError (text : string) (cause : error)   (* raise ... from cause *)
| AttributeError
| Raised (e : E).

(** [self.cmd.ExecuteAddOnCommand(self.types.AddOnCommandId(namespace, name)
    [, parameters])]: the callee [self.cmd.ExecuteAddOnCommand] is evaluated
    before the argument. *)
Definition execute (self : ArchicadConnection) (namespace name : string)
                   (parameters : option pyval) : result error pyval :=
  match cmd self with
  | None => Err AttributeError
  | Some c =>
      match self_types self with
      | None => Err AttributeError
      | Some t =>
          match ExecuteAddOnCommand c (AddOnCommandId t namespace name) parameters with
          | Ok v => Ok v
          | Err e => Err (Raised e)
          end
      end
  end.

(** [self._check_tapir()] *)
Definition _check_tapir (self : ArchicadConnection) : result error unit :=
  match execute self "TapirCommand" "GetAddOnVersion" None with
  | Ok _ => Ok tt
  | Err exc =>
      Err (RuntimeError
             ("Tapir addon is not available. "
              ++ "Install it from https://github.com/ENZYME-APD/tapir-archicad-automation")
             exc)
  end.

(** [self.connect()]: what it raises, or [Ok] when it returns [self], and
    the object afterwards. *)
Definition connect (self : ArchicadConnection)
  : result error unit * ArchicadConnection :=
  match ACConnection_connect with
  | Err e => (Err (Raised e), self)
  | Ok c =>
      let self := {| conn := c; cmd := cmd self; self_types := self_types self |} in
      match c with
      | None =>
          (Err (ConnectionError
                  ("Could not connect to ArchiCAD. "
                   ++ "Make sure ArchiCAD is running and the Python API is enabled.")),
           self)
      | Some ac =>
          let self := {| conn := conn self; cmd := Some (commands ac);
                         self_types := self_types self |} in
          let self := {| conn := conn self; cmd := cmd self;
                         self_types := Some (types ac) |} in
          (_check_tapir self, self)
      end
  end.

(** [parameters is not None]: the parameters handed on, none when the
    argument was left out or is [None]. *)
Definition given (parameters : option pyval) : option pyval :=
  match parameters with
  | Some PyNone => None
  | p => p
  end.

(** [self.tapir(command, parameters=None)]: [cmd_id] is made first. *)
Definition tapir (self : ArchicadConnection) (command : string)
                 (parameters : option pyval) : result error pyval :=
  match self_types self with
  | None => Err AttributeError
  | Some t =>
      let cmd_id := AddOnCommandId t "TapirCommand" command in
      match cmd self with
      | None => Err AttributeError
      | Some c =>
          match ExecuteAddOnCommand c cmd_id (given parameters) with
          | Ok v => Ok v
          | Err e => Err (Raised e)
          end
      end
  end.

End Connection.

Arguments AddOnCommandId {Id} t namespace name : rename.
Arguments ExecuteAddOnCommand {E Id} c id parameters : rename.
Arguments commands {E Id} a.
Arguments types {E Id} a.
Arguments conn {E Id} a.
Arguments cmd {E Id} a.
Arguments self_types {E Id} a.
Arguments ConnectionError {E} text.
Arguments RuntimeError {E} text cause.
Arguments AttributeError {E}.
Arguments Raised {E} e.

End Connection.

(* ------------------------------------------------------------------ *)
(** ** ui.py: the lookup worker *)

Module Ui.

Import CrsMetadata.

(** The mapping [_LookupWorker.run] emits with its [result] signal. *)
Record lookup_result : Type := {
  meta : CRSMetadata;
  lon : option float;
  lat : option float
}.

(** The one signal a run of the worker emits. *)
Inductive signal : Type :=
| result_emit (r : lookup_result)
| failed_emit (msg : string).

Section LookupWorker.

Variable E : Type.

(** [str(exc)] of an exception of pyproj. *)
Variable exc_str : E -> string.

Variable CRS_from_epsg : Z -> outcome CRS.
Variable requests_get : string -> outcome Response.
Variable Transformer_from_crs :
  string -> string -> bool -> result E (CoordTransformer.Transformer E).

(** [_LookupWorker(epsg, eastings, northings).run()] *)
Definition run (epsg : Z) (eastings northings : option float) : signal :=
  match from_epsg CRS_from_epsg requests_get epsg with
  | Err (ValueError text) => failed_emit text
  | Ok m =>
      match eastings, northings with
      | Some e, Some n =>
          match CoordTransformer.survey_to_wgs84 E Transformer_from_crs e n epsg with
          | Ok (x, y) => result_emit {| meta := m; lon := Some x; lat := Some y |}
          | Err (CoordTransformer.Library exc) => failed_emit (exc_str exc)
          | Err CoordTransformer.UnpackError =>
              failed_emit "too many values to unpack (expected 2)"
          end
      | _, _ => result_emit {| meta := m; lon := None; lat := None |}
      end
  end.

End LookupWorker.

End Ui.

(* ================================================================== *)
(** * Properties *)

(* ------------------------------------------------------------------ *)
(** ** The zone heuristic *)

Module ZoneFacts.

Import Re CrsMetadata.

(** No character of the subject is a decimal digit. *)
Definition digit_free (s : list ascii) : Prop :=
  Forall (fun c => Text.is_digit c = false) s.

(** A pattern that cannot match without consuming a character of class [q]:
    one of its items is a character of a class inside [q], or a repetition,
    at least once, of such a class. *)
Inductive demands (q : ascii -> bool) : pattern -> Prop :=
| demands_chr p rest :
    (forall c, p c = true -> q c = true) -> demands q (Chr p :: rest)
| demands_rep p lo hi rest :
    (forall c, p c = true -> q c = true) -> demands q (Rep p (S lo) hi :: rest)
| demands_later i rest :
    demands q rest -> demands q (i :: rest).

Lemma digit_free_tail c s : digit_free (c :: s) -> digit_free s.
Proof. intros H. inversion H. assumption. Qed.

Lemma digit_free_head c s : digit_free (c :: s) -> Text.is_digit c = false.
Proof. intros H. inversion H. assumption. Qed.

(** A repetition whose rest of the pattern fails everywhere fails. *)
Lemma repeat_rest_fails k p :
  (forall prev s g, digit_free s -> k prev s g = None) ->
  forall s lo hi prev g, digit_free s -> repeat k p lo hi prev s g = None.
Proof.
  intros Hk. induction s as [|c s IH]; intros lo hi prev g Hs; simpl.
  - destruct lo; [apply Hk; assumption | reflexivity].
  - assert (Hstop : match lo with O => k prev (c :: s) g | S _ => None end = None)
      by (destruct lo; [apply Hk; assumption | reflexivity]).
    destruct (p c && may_repeat hi); [|exact Hstop].
    rewrite IH by (eapply digit_free_tail; eassumption). exact Hstop.
Qed.

(** A repetition, at least once, of digits fails on a digit-free subject. *)
Lemma repeat_digits_fails k p :
  (forall c, p c = true -> Text.is_digit c = true) ->
  forall s lo hi prev g, digit_free s -> repeat k p (S lo) hi prev s g = None.
Proof.
  intros Hp s lo hi prev g Hs. destruct s as [|c s]; simpl; [reflexivity|].
  destruct (p c) eqn:Hc; [|reflexivity].
  apply Hp in Hc. rewrite (digit_free_head _ _ Hs) in Hc. discriminate.
Qed.

Lemma match_here_needs_digit its :
  demands Text.is_digit its ->
  forall prev s g, digit_free s -> match_here its prev s g = None.
Proof.
  induction 1 as [p rest Hp | p lo hi rest Hp | i rest Hd IH]; intros prev s g Hs.
  - destruct s as [|c s]; simpl; [reflexivity|].
    destruct (p c) eqn:Hc; [|reflexivity].
    apply Hp in Hc. rewrite (digit_free_head _ _ Hs) in Hc. discriminate.
  - simpl. apply repeat_digits_fails; assumption.
  - destruct i as [p | p lo hi | | |]; simpl.
    + destruct s as [|c s]; [reflexivity|].
      destruct (p c); [|reflexivity].
      apply IH. eapply digit_free_tail; eassumption.
    + apply repeat_rest_fails; assumption.
    + destruct (at_boundary prev s); [apply IH; assumption | reflexivity].
    + apply IH; assumption.
    + apply IH; assumption.
Qed.

Lemma search_from_needs_digit its :
  demands Text.is_digit its ->
  forall s prev, digit_free s -> search_from its prev s = None.
Proof.
  intros Hd. induction s as [|c s IH]; intros prev Hs; simpl;
    rewrite (match_here_needs_digit its Hd) by assumption.
  - reflexivity.
  - apply IH. eapply digit_free_tail; eassumption.
Qed.

Lemma zone_pattern_demands : demands Text.is_digit zone_pattern.
Proof.
  unfold zone_pattern. do 7 apply demands_later. apply demands_rep. auto.
Qed.

Lemma embedded_pattern_demands : demands Text.is_digit embedded_pattern.
Proof.
  unfold embedded_pattern. do 2 apply demands_later. apply demands_rep. auto.
Qed.

(** Neither pattern matches a name without digits. *)
Lemma search_digit_free s :
  digit_free (list_ascii_of_string s) ->
  search zone_pattern s = None /\ search embedded_pattern s = None.
Proof.
  intros Hs. unfold search. split; apply search_from_needs_digit;
    auto using zone_pattern_demands, embedded_pattern_demands.
Qed.

End ZoneFacts.

(** C4.  The zone heuristic on the four literal names of its documentation,
    and on every name without a decimal digit: the result is the empty string,
    with the CRS name left at its default and, more generally, with any CRS
    name that has no digit either. *)
Theorem extract_zone_cases :
  CrsMetadata._extract_zone "UTM zone 33N" "" = "33N"
  /\ CrsMetadata._extract_zone "TM35FIN(E,N)" "" = "35"
  /\ CrsMetadata._extract_zone "GK25FIN" "" = "25"
  /\ CrsMetadata._extract_zone "zone 6" "" = "6"
  /\ (forall name,
        ZoneFacts.digit_free (list_ascii_of_string name) ->
        CrsMetadata._extract_zone name "" = "")
  /\ (forall op_name crs_name,
        ZoneFacts.digit_free (list_ascii_of_string op_name) ->
        ZoneFacts.digit_free (list_ascii_of_string crs_name) ->
        CrsMetadata._extract_zone op_name crs_name = "").
Proof.
  assert (H2 : forall op_name crs_name,
             ZoneFacts.digit_free (list_ascii_of_string op_name) ->
             ZoneFacts.digit_free (list_ascii_of_string crs_name) ->
             CrsMetadata._extract_zone op_name crs_name = "").
  { intros op_name crs_name Ho Hc. unfold CrsMetadata._extract_zone.
    destruct (ZoneFacts.search_digit_free _ Ho) as [-> ->].
    destruct (ZoneFacts.search_digit_free _ Hc) as [-> ->].
    reflexivity. }
  repeat split; try (vm_compute; reflexivity); try exact H2.
  intros name Hn. apply H2; [assumption | constructor].
Qed.

Lemma extract_zone_cases_witness :
  CrsMetadata._extract_zone "Transverse Mercator" "" = "".
Proof.
  apply (proj1 (proj2 (proj2 (proj2 (proj2 extract_zone_cases))))).
  repeat constructor.
Defined.

(* ------------------------------------------------------------------ *)
(** ** The resolver *)

Module ResolverFacts.

Import CrsMetadata.

Lemma truthy_empty s : Text.truthy s = false <-> s = "".
Proof. destruct s; simpl; split; intros H; congruence. Qed.

Lemma truthy_nonempty s : Text.truthy s = true <-> s <> "".
Proof. destruct s; simpl; split; intros H; congruence. Qed.

(** The object after the network step found a first result named [n]. *)
Definition filled (meta : CRSMetadata) (n : string) : CRSMetadata :=
  {| crs_name := if Text.truthy (crs_name meta) then crs_name meta else n;
     description := if Text.truthy (description meta) then description meta else n;
     geodetic_datum := geodetic_datum meta;
     vertical_datum := vertical_datum meta;
     map_projection := map_projection meta;
     map_zone := if Text.truthy (map_zone meta) then map_zone meta
                 else _extract_zone n "" |}.

(** The name the service gives for [code], when it answers with status 200,
    a document and at least one result. *)
Definition answer (requests_get : string -> outcome Response) (code : Z)
  : option string :=
  match requests_get (epsg_io_url code) with
  | Returns resp =>
      if (status_code resp =? 200)%Z then
        match json resp with
        | Returns doc =>
            match results doc with
            | Some (r :: _) => Some (name_of r)
            | _ => None
            end
        | Raises => None
        end
      else None
  | Raises => None
  end.

Lemma eta (m : CRSMetadata) :
  {| crs_name := crs_name m; description := description m;
     geodetic_datum := geodetic_datum m; vertical_datum := vertical_datum m;
     map_projection := map_projection m; map_zone := map_zone m |} = m.
Proof. destruct m; reflexivity. Qed.

Lemma fill_cases requests_get code meta :
  _fill_from_epsg_io requests_get code meta =
  match answer requests_get code with
  | Some n => filled meta n
  | None => meta
  end.
Proof.
  unfold _fill_from_epsg_io, answer, exec, try_pass, epsg_io_block, bind, eval.
  destruct (requests_get (epsg_io_url code)) as [|resp]; simpl; [reflexivity|].
  destruct (status_code resp =? 200)%Z; simpl; [|reflexivity].
  destruct (json resp) as [|doc]; simpl; [reflexivity|].
  destruct (results doc) as [[|r rest]|]; simpl; try reflexivity.
  unfold filled, get, set_crs_name, set_description, set_map_zone, ret.
  destruct meta as [cn ds gd vd mp mz]; simpl.
  destruct (Text.truthy cn); simpl; destruct (Text.truthy ds); simpl;
    destruct (Text.truthy mz); reflexivity.
Qed.

(** The network step leaves a non-empty name as it is. *)
Lemma fill_keeps_name requests_get code meta :
  crs_name meta <> "" ->
  crs_name (_fill_from_epsg_io requests_get code meta) = crs_name meta.
Proof.
  intros H. rewrite fill_cases. destruct (answer requests_get code); [|reflexivity].
  simpl. apply truthy_nonempty in H. rewrite H. reflexivity.
Qed.

End ResolverFacts.

(** C1.  The merge policy of the resolver, for every code and every behaviour
    of the two sources.  With [local] the result of the local-database step
    and [merged] the object after the network step: the network step leaves
    the datum and projection fields alone and leaves every non-empty field
    of [crs_name], [description], [map_zone] as it is; when the service
    answers with a first result, an empty field of these three is filled from
    that result's name; and [from_epsg] returns [merged] both when the local
    name is there and the zone is not (local name kept, zone taken from the
    network name) and when the local name is empty (network name used). *)
Theorem resolver_merge_policy :
  forall (CRS_from_epsg : Z -> outcome CrsMetadata.CRS)
         (requests_get : string -> outcome CrsMetadata.Response) (code : Z),
    let local := CrsMetadata._from_pyproj CRS_from_epsg code in
    let merged := CrsMetadata._fill_from_epsg_io requests_get code local in
    (CrsMetadata.geodetic_datum merged = CrsMetadata.geodetic_datum local
     /\ CrsMetadata.vertical_datum merged = CrsMetadata.vertical_datum local
     /\ CrsMetadata.map_projection merged = CrsMetadata.map_projection local)
    /\ (CrsMetadata.crs_name local <> "" ->
        CrsMetadata.crs_name merged = CrsMetadata.crs_name local)
    /\ (CrsMetadata.description local <> "" ->
        CrsMetadata.description merged = CrsMetadata.description local)
    /\ (CrsMetadata.map_zone local <> "" ->
        CrsMetadata.map_zone merged = CrsMetadata.map_zone local)
    /\ (forall resp doc r rest,
          requests_get (CrsMetadata.epsg_io_url code) = Returns resp ->
          CrsMetadata.status_code resp = 200%Z ->
          CrsMetadata.json resp = Returns doc ->
          CrsMetadata.results doc = Some (r :: rest) ->
          (CrsMetadata.crs_name local = "" ->
           CrsMetadata.crs_name merged = CrsMetadata.name_of r)
          /\ (CrsMetadata.description local = "" ->
              CrsMetadata.description merged = CrsMetadata.name_of r)
          /\ (CrsMetadata.map_zone local = "" ->
              CrsMetadata.map_zone merged
              = CrsMetadata._extract_zone (CrsMetadata.name_of r) "")
          /\ (CrsMetadata.crs_name local <> "" ->
              CrsMetadata.map_zone local = "" ->
              CrsMetadata.from_epsg CRS_from_epsg requests_get code = Ok merged
              /\ CrsMetadata.crs_name merged = CrsMetadata.crs_name local
              /\ CrsMetadata.map_zone merged
                 = CrsMetadata._extract_zone (CrsMetadata.name_of r) "")
          /\ (CrsMetadata.crs_name local = "" ->
              CrsMetadata.name_of r <> "" ->
              CrsMetadata.from_epsg CRS_from_epsg requests_get code = Ok merged
              /\ CrsMetadata.crs_name merged = CrsMetadata.name_of r)).
Proof.
  intros db net code local merged.
  assert (Hm : merged = match ResolverFacts.answer net code with
                        | Some n => ResolverFacts.filled local n
                        | None => local
                        end) by apply ResolverFacts.fill_cases.
  split; [|split; [|split; [|split]]].
  - rewrite Hm. destruct (ResolverFacts.answer net code); simpl; auto.
  - apply ResolverFacts.fill_keeps_name.
  - intros H. rewrite Hm. destruct (ResolverFacts.answer net code); [|reflexivity].
    simpl. apply ResolverFacts.truthy_nonempty in H. rewrite H. reflexivity.
  - intros H. rewrite Hm. destruct (ResolverFacts.answer net code); [|reflexivity].
    simpl. apply ResolverFacts.truthy_nonempty in H. rewrite H. reflexivity.
  - intros resp doc r rest Hget Hst Hjs Hres.
    assert (Ha : ResolverFacts.answer net code = Some (CrsMetadata.name_of r)).
    { unfold ResolverFacts.answer. rewrite Hget, Hst, Hjs, Hres. reflexivity. }
    rewrite Ha in Hm.
    assert (Hcn : CrsMetadata.crs_name local = "" ->
                  CrsMetadata.crs_name merged = CrsMetadata.name_of r).
    { intros H. rewrite Hm. simpl. rewrite H. reflexivity. }
    assert (Hmz : CrsMetadata.map_zone local = "" ->
                  CrsMetadata.map_zone merged
                  = CrsMetadata._extract_zone (CrsMetadata.name_of r) "").
    { intros H. rewrite Hm. simpl. rewrite H. reflexivity. }
    split; [exact Hcn|]. split.
    { intros H. rewrite Hm. simpl. rewrite H. reflexivity. }
    split; [exact Hmz|]. split.
    + intros Hn Hz.
      assert (Hk : CrsMetadata.crs_name merged = CrsMetadata.crs_name local)
        by (apply ResolverFacts.fill_keeps_name; exact Hn).
      split; [|split; [exact Hk | exact (Hmz Hz)]].
      unfold CrsMetadata.from_epsg. fold local. rewrite Hz. simpl.
      rewrite orb_true_r. fold merged. rewrite Hk.
      apply ResolverFacts.truthy_nonempty in Hn. rewrite Hn. reflexivity.
    + intros Hn Hr. split; [|exact (Hcn Hn)].
      unfold CrsMetadata.from_epsg. fold local. rewrite Hn. simpl.
      fold merged. rewrite (Hcn Hn).
      apply ResolverFacts.truthy_nonempty in Hr. rewrite Hr. reflexivity.
Qed.

Lemma resolver_merge_policy_witness :
  let db := fun _ : Z =>
    Returns {| CrsMetadata.name := "KKJ / Finland Uniform Coordinate System";
               CrsMetadata.remarks := None;
               CrsMetadata.geodetic_crs := Returns None;
               CrsMetadata.datum := Returns None;
               CrsMetadata.coordinate_operation := Returns None |} in
  let r := {| CrsMetadata.result_name := Some "WGS 84 / UTM zone 33N" |} in
  let doc := {| CrsMetadata.results := Some [r] |} in
  let resp := {| CrsMetadata.status_code := 200; CrsMetadata.json := Returns doc |} in
  let net := fun _ : string => Returns resp in
  let merged :=
    CrsMetadata._fill_from_epsg_io net 2393 (CrsMetadata._from_pyproj db 2393) in
  CrsMetadata.from_epsg db net 2393 = Ok merged
  /\ CrsMetadata.crs_name merged = "KKJ / Finland Uniform Coordinate System"
  /\ CrsMetadata.map_zone merged = "33N".
Proof.
  intros db r doc resp net merged.
  destruct (resolver_merge_policy db net 2393) as (_ & _ & _ & _ & H).
  destruct (H resp doc r [] eq_refl eq_refl eq_refl eq_refl) as (_ & _ & _ & H1 & _).
  apply H1; [discriminate | reflexivity].
Defined.

Module ResolverFacts2.

Import CrsMetadata ResolverFacts.

(** The two guarded blocks assign neither the name nor the description. *)
Lemma datum_block_keeps crs m :
  crs_name (snd (datum_block crs m)) = crs_name m
  /\ description (snd (datum_block crs m)) = description m
  /\ vertical_datum (snd (datum_block crs m)) = vertical_datum m
  /\ map_projection (snd (datum_block crs m)) = map_projection m
  /\ map_zone (snd (datum_block crs m)) = map_zone m.
Proof.
  unfold datum_block, bind, eval.
  destruct (geodetic_crs crs) as [|[g|]]; simpl; auto;
    [destruct (geodetic_crs_datum g) as [|[d|]] | destruct (datum crs) as [|[d|]]];
    simpl; auto; destruct (datum_name d); simpl; auto.
Qed.

Lemma operation_block_keeps crs m :
  crs_name (snd (operation_block crs m)) = crs_name m
  /\ description (snd (operation_block crs m)) = description m
  /\ geodetic_datum (snd (operation_block crs m)) = geodetic_datum m
  /\ vertical_datum (snd (operation_block crs m)) = vertical_datum m.
Proof.
  unfold operation_block, bind, eval.
  destruct (coordinate_operation crs) as [|[op|]]; simpl; auto.
  destruct (method_name op); simpl; auto.
  destruct (operation_name op); simpl; auto.
Qed.

(** [_from_pyproj] once the code lookup returned [crs]. *)
Lemma from_pyproj_found db code crs :
  db code = Returns crs ->
  _from_pyproj db code =
  snd (operation_block crs
         (snd (datum_block crs
                 {| crs_name := Text.or_else (name crs) "";
                    description :=
                      Text.or_else
                        (Text.or_else (Text.strip (str_or_empty (remarks crs)))
                                      (name crs)) "";
                    geodetic_datum := ""; vertical_datum := "";
                    map_projection := ""; map_zone := "" |}))).
Proof. intros H. unfold _from_pyproj. rewrite H. reflexivity. Qed.

Lemma or_else_empty s : Text.or_else s "" = s.
Proof. destruct s; reflexivity. Qed.

(** A local result with a name has a description. *)
Lemma from_pyproj_described db code :
  crs_name (_from_pyproj db code) <> "" ->
  description (_from_pyproj db code) <> "".
Proof.
  destruct (db code) as [|crs] eqn:Hdb.
  - unfold _from_pyproj. rewrite Hdb. simpl. auto.
  - rewrite (from_pyproj_found _ _ _ Hdb).
    destruct (operation_block_keeps crs
                (snd (datum_block crs
                 {| crs_name := Text.or_else (name crs) "";
                    description :=
                      Text.or_else
                        (Text.or_else (Text.strip (str_or_empty (remarks crs)))
                                      (name crs)) "";
                    geodetic_datum := ""; vertical_datum := "";
                    map_projection := ""; map_zone := "" |})))
      as (-> & -> & _).
    destruct (datum_block_keeps crs
                 {| crs_name := Text.or_else (name crs) "";
                    description :=
                      Text.or_else
                        (Text.or_else (Text.strip (str_or_empty (remarks crs)))
                                      (name crs)) "";
                    geodetic_datum := ""; vertical_datum := "";
                    map_projection := ""; map_zone := "" |})
      as (-> & -> & _).
    simpl. rewrite !or_else_empty. intros Hn.
    unfold Text.or_else.
    destruct (Text.truthy (Text.strip (str_or_empty (remarks crs)))) eqn:Ht.
    + apply truthy_nonempty. exact Ht.
    + exact Hn.
Qed.

(** The network step changes nothing in an object whose three fields are
    there. *)
Lemma fill_nothing_to_do requests_get code meta :
  crs_name meta <> "" -> description meta <> "" -> map_zone meta <> "" ->
  _fill_from_epsg_io requests_get code meta = meta.
Proof.
  intros H1 H2 H3. rewrite fill_cases.
  destruct (answer requests_get code); [|reflexivity].
  unfold filled. apply truthy_nonempty in H1, H2, H3. rewrite H1, H2, H3.
  apply eta.
Qed.

(** [from_epsg] in terms of the object after both steps. *)
Lemma from_epsg_after db net code :
  from_epsg db net code =
  let after := _fill_from_epsg_io net code (_from_pyproj db code) in
  if Text.truthy (crs_name after) then Ok after
  else Err (ValueError ("EPSG:" ++ Text.str_of_int code
                        ++ " could not be resolved by pyproj or epsg.io")).
Proof.
  unfold from_epsg. cbv zeta.
  destruct (Text.truthy (crs_name (_from_pyproj db code))) eqn:Hn;
    [destruct (Text.truthy (map_zone (_from_pyproj db code))) eqn:Hz|]; simpl.
  - rewrite fill_nothing_to_do.
    + rewrite Hn. reflexivity.
    + apply truthy_nonempty; exact Hn.
    + apply from_pyproj_described, truthy_nonempty; exact Hn.
    + apply truthy_nonempty; exact Hz.
  - destruct (Text.truthy (crs_name (_fill_from_epsg_io net code (_from_pyproj db code))));
      reflexivity.
  - destruct (Text.truthy (crs_name (_fill_from_epsg_io net code (_from_pyproj db code))));
      reflexivity.
Qed.

Lemma list_of_append a b :
  list_ascii_of_string (a ++ b) = (list_ascii_of_string a ++ list_ascii_of_string b)%list.
Proof. induction a as [|c a IH]; simpl; [reflexivity | rewrite IH; reflexivity]. Qed.

Lemma append_inv_tail a b s : a ++ s = b ++ s -> a = b.
Proof.
  intros H. apply (f_equal list_ascii_of_string) in H.
  rewrite !list_of_append in H. apply app_inv_tail in H.
  apply (f_equal string_of_list_ascii) in H.
  rewrite !string_of_list_ascii_of_string in H. exact H.
Qed.

(** The decimal text of an [int] determines it. *)
Lemma str_of_int_inj a b : Text.str_of_int a = Text.str_of_int b -> a = b.
Proof.
  unfold Text.str_of_int. intros H.
  assert (Hp : forall z, Z.to_int z <> Decimal.Pos Decimal.Nil
                         /\ Z.to_int z <> Decimal.Neg Decimal.Nil).
  { intros [|p|p]; simpl; split; try discriminate;
      intros [= Hq]; exact (DecimalPos.Unsigned.to_uint_nonnil p Hq). }
  apply (f_equal NilZero.int_of_string) in H.
  rewrite !NilZero.isi in H by apply Hp.
  injection H as H. apply DecimalZ.to_int_inj. exact H.
Qed.

End ResolverFacts2.

(** C2.  [from_epsg] fails exactly when the name is still empty after the
    local-database step and the network step; the error is the [ValueError]
    whose text holds the code, and the text determines the code.  Otherwise it
    returns the object after both steps.  A code whose local result has a name
    succeeds when the network source raises, answers with another status,
    with no document or with no result, and returns the local result. *)
Theorem resolution_fails_iff_no_name :
  forall (CRS_from_epsg : Z -> outcome CrsMetadata.CRS)
         (requests_get : string -> outcome CrsMetadata.Response) (code : Z),
    let local := CrsMetadata._from_pyproj CRS_from_epsg code in
    let after := CrsMetadata._fill_from_epsg_io requests_get code local in
    let failure (c : Z) :=
      CrsMetadata.ValueError
        ("EPSG:" ++ Text.str_of_int c ++ " could not be resolved by pyproj or epsg.io") in
    (CrsMetadata.crs_name after = "" <->
     CrsMetadata.from_epsg CRS_from_epsg requests_get code = Err (failure code))
    /\ (CrsMetadata.crs_name after <> "" <->
        CrsMetadata.from_epsg CRS_from_epsg requests_get code = Ok after)
    /\ (forall c c', failure c = failure c' -> c = c')
    /\ (CrsMetadata.crs_name local <> "" ->
        (requests_get (CrsMetadata.epsg_io_url code) = Raises
         \/ exists resp,
              requests_get (CrsMetadata.epsg_io_url code) = Returns resp
              /\ (CrsMetadata.status_code resp <> 200%Z
                  \/ CrsMetadata.json resp = Raises
                  \/ exists doc,
                       CrsMetadata.json resp = Returns doc
                       /\ (CrsMetadata.results doc = None
                           \/ CrsMetadata.results doc = Some []))) ->
        CrsMetadata.from_epsg CRS_from_epsg requests_get code = Ok local).
Proof.
  intros db net code local after failure.
  pose proof (ResolverFacts2.from_epsg_after db net code) as He.
  cbv zeta in He. fold local in He. fold after in He.
  split; [|split; [|split]].
  - rewrite He. destruct (Text.truthy (CrsMetadata.crs_name after)) eqn:Ht.
    + apply ResolverFacts.truthy_nonempty in Ht. split; [contradiction | discriminate].
    + apply ResolverFacts.truthy_empty in Ht. split; [reflexivity | auto].
  - rewrite He. destruct (Text.truthy (CrsMetadata.crs_name after)) eqn:Ht.
    + apply ResolverFacts.truthy_nonempty in Ht. split; [reflexivity | auto].
    + apply ResolverFacts.truthy_empty in Ht. split; [contradiction | discriminate].
  - intros c c' H. unfold failure in H. injection H as H.
    apply ResolverFacts2.append_inv_tail in H.
    apply ResolverFacts2.str_of_int_inj. exact H.
  - intros Hn Hnet.
    assert (Ha : ResolverFacts.answer net code = None).
    { unfold ResolverFacts.answer.
      destruct Hnet as [-> | (resp & -> & [Hs | [Hj | (doc & Hj & [Hr | Hr])]])].
      - reflexivity.
      - apply Z.eqb_neq in Hs. rewrite Hs. reflexivity.
      - rewrite Hj. destruct (_ =? _)%Z; reflexivity.
      - rewrite Hj, Hr. destruct (_ =? _)%Z; reflexivity.
      - rewrite Hj, Hr. destruct (_ =? _)%Z; reflexivity. }
    assert (Haf : after = local).
    { unfold after. rewrite ResolverFacts.fill_cases, Ha. reflexivity. }
    rewrite He, Haf. apply ResolverFacts.truthy_nonempty in Hn. rewrite Hn.
    reflexivity.
Qed.

Lemma resolution_fails_iff_no_name_witness :
  let db := fun _ : Z =>
    Returns {| CrsMetadata.name := "WGS 84";
               CrsMetadata.remarks := None;
               CrsMetadata.geodetic_crs := Returns None;
               CrsMetadata.datum := Returns None;
               CrsMetadata.coordinate_operation := Returns None |} in
  let net := fun _ : string => @Raises CrsMetadata.Response in
  CrsMetadata.from_epsg db net 4326 = Ok (CrsMetadata._from_pyproj db 4326).
Proof.
  intros db net.
  destruct (resolution_fails_iff_no_name db net 4326) as (_ & _ & _ & H).
  apply H; [discriminate | left; reflexivity].
Defined.

Module LocalStepFacts.

Import CrsMetadata ResolverFacts ResolverFacts2.

(** The datum sub-lookup raises: reading [geodetic_crs], reading [datum] of
    the object chosen, or reading the datum's [name]. *)
Definition datum_lookup_raises (crs : CRS) : Prop :=
  geodetic_crs crs = Raises
  \/ (exists g, geodetic_crs crs = Returns (Some g)
                /\ (geodetic_crs_datum g = Raises
                    \/ exists d, geodetic_crs_datum g = Returns (Some d)
                                 /\ datum_name d = Raises))
  \/ (geodetic_crs crs = Returns None
      /\ (datum crs = Raises
          \/ exists d, datum crs = Returns (Some d) /\ datum_name d = Raises)).

Lemma datum_block_raised crs m :
  datum_lookup_raises crs ->
  geodetic_datum (snd (datum_block crs m)) = geodetic_datum m.
Proof.
  unfold datum_lookup_raises, datum_block, bind, eval.
  intros [H | [(g & Hg & [H | (d & Hd & H)]) | (Hg & [H | (d & Hd & H)])]].
  - rewrite H. reflexivity.
  - rewrite Hg, H. reflexivity.
  - rewrite Hg, Hd, H. reflexivity.
  - rewrite Hg, H. reflexivity.
  - rewrite Hg, Hd, H. reflexivity.
Qed.

(** The description the local step gives a found code. *)
Definition local_description (crs : CRS) : string :=
  Text.or_else (Text.strip (str_or_empty (remarks crs))) (name crs).

(** The object the two guarded blocks start from. *)
Definition named (crs : CRS) : CRSMetadata :=
  {| crs_name := name crs; description := local_description crs;
     geodetic_datum := ""; vertical_datum := "";
     map_projection := ""; map_zone := "" |}.

Lemma from_pyproj_blocks db code crs :
  db code = Returns crs ->
  _from_pyproj db code =
  snd (operation_block crs (snd (datum_block crs (named crs)))).
Proof.
  intros H. rewrite (from_pyproj_found _ _ _ H). unfold named, local_description.
  rewrite !or_else_empty. reflexivity.
Qed.

End LocalStepFacts.

(** C7, as the code has it.  [_from_pyproj] returns an object for every
    behaviour of the local database (its type has no failure).  When the code
    lookup raises, the object is all-empty.  When the lookup returns a
    description, its name and description are kept whatever the sub-lookups
    do: a datum sub-lookup that raises leaves [geodetic_datum] empty, an
    operation sub-lookup that raises leaves [map_zone] empty, and
    [map_projection] empty too unless the method name was read before the
    raise. *)
Theorem from_pyproj_degrades :
  forall (CRS_from_epsg : Z -> outcome CrsMetadata.CRS) (code : Z),
    let m := CrsMetadata._from_pyproj CRS_from_epsg code in
    (CRS_from_epsg code = Raises -> m = CrsMetadata.empty_metadata)
    /\ (forall crs,
          CRS_from_epsg code = Returns crs ->
          CrsMetadata.crs_name m = CrsMetadata.name crs
          /\ CrsMetadata.description m = LocalStepFacts.local_description crs
          /\ CrsMetadata.vertical_datum m = ""
          /\ (LocalStepFacts.datum_lookup_raises crs ->
              CrsMetadata.geodetic_datum m = "")
          /\ (CrsMetadata.coordinate_operation crs = Raises ->
              CrsMetadata.map_projection m = "" /\ CrsMetadata.map_zone m = "")
          /\ (forall op,
                CrsMetadata.coordinate_operation crs = Returns (Some op) ->
                CrsMetadata.method_name op = Raises ->
                CrsMetadata.map_projection m = "" /\ CrsMetadata.map_zone m = "")
          /\ (forall op mn,
                CrsMetadata.coordinate_operation crs = Returns (Some op) ->
                CrsMetadata.method_name op = Returns mn ->
                CrsMetadata.operation_name op = Raises ->
                CrsMetadata.map_projection m = str_or_empty mn
                /\ CrsMetadata.map_zone m = "")).
Proof.
  intros db code m. split.
  - intros H. unfold m, CrsMetadata._from_pyproj. rewrite H. reflexivity.
  - intros crs Hdb. unfold m. rewrite (LocalStepFacts.from_pyproj_blocks _ _ _ Hdb).
    set (m1 := snd (CrsMetadata.datum_block crs (LocalStepFacts.named crs))).
    destruct (ResolverFacts2.datum_block_keeps crs (LocalStepFacts.named crs))
      as (Hcn & Hds & Hvd & Hmp & Hmz).
    fold m1 in Hcn, Hds, Hvd, Hmp, Hmz. simpl in Hcn, Hds, Hvd, Hmp, Hmz.
    destruct (ResolverFacts2.operation_block_keeps crs m1) as (-> & -> & -> & ->).
    split; [exact Hcn|]. split; [exact Hds|]. split; [exact Hvd|].
    split; [|split; [|split]].
    + intros H. unfold m1. rewrite LocalStepFacts.datum_block_raised by exact H.
      reflexivity.
    + intros H. unfold CrsMetadata.operation_block, CrsMetadata.bind, CrsMetadata.eval.
      rewrite H. simpl. auto.
    + intros op Ho H.
      unfold CrsMetadata.operation_block, CrsMetadata.bind, CrsMetadata.eval.
      rewrite Ho, H. simpl. auto.
    + intros op mn Ho Hm H.
      unfold CrsMetadata.operation_block, CrsMetadata.bind, CrsMetadata.eval.
      rewrite Ho, Hm. simpl. rewrite H. simpl. auto.
Qed.

Lemma from_pyproj_degrades_witness :
  let op := {| CrsMetadata.method_name := Returns (Some "Transverse Mercator");
               CrsMetadata.operation_name := Raises |} in
  let crs := {| CrsMetadata.name := "ETRS89 / TM35FIN(E,N)";
                CrsMetadata.remarks := None;
                CrsMetadata.geodetic_crs := Returns None;
                CrsMetadata.datum := Returns None;
                CrsMetadata.coordinate_operation := Returns (Some op) |} in
  let m := CrsMetadata._from_pyproj (fun _ => Returns crs) 3067 in
  CrsMetadata.map_projection m = "Transverse Mercator"
  /\ CrsMetadata.map_zone m = "".
Proof.
  intros op crs m.
  destruct (from_pyproj_degrades (fun _ => Returns crs) 3067) as (_ & H).
  destruct (H crs eq_refl) as (_ & _ & _ & _ & _ & _ & H1).
  exact (H1 op (Some "Transverse Mercator") eq_refl eq_refl eq_refl).
Defined.

(** C7 as stated does not hold: with the code found and every sub-lookup
    raising, the object returned has its name and description, so it is not
    the all-empty object. *)
Lemma from_pyproj_partial_counterexample :
  let crs := {| CrsMetadata.name := "WGS 84";
                CrsMetadata.remarks := None;
                CrsMetadata.geodetic_crs := Raises;
                CrsMetadata.datum := Raises;
                CrsMetadata.coordinate_operation := Raises |} in
  let m := CrsMetadata._from_pyproj (fun _ => Returns crs) 4326 in
  m = {| CrsMetadata.crs_name := "WGS 84";
         CrsMetadata.description := "WGS 84";
         CrsMetadata.geodetic_datum := "";
         CrsMetadata.vertical_datum := "";
         CrsMetadata.map_projection := "";
         CrsMetadata.map_zone := "" |}
  /\ m <> CrsMetadata.empty_metadata.
Proof.
  split; [reflexivity | discriminate].
Qed.

(* ------------------------------------------------------------------ *)
(** ** The writer's payload *)

Module PayloadFacts.

Import Py.

(** [v[k1][k2]...]: the value under a path of keys, [None] when a key is
    missing or a value on the way is not a [dict]. *)
Fixpoint at_path (v : pyval) (path : list string) : option pyval :=
  match path with
  | [] => Some v
  | k :: rest =>
      match v with
      | PyDict d =>
          match lookup k d with
          | Some x => at_path x rest
          | None => None
          end
      | _ => None
      end
  end.

(** The keys of a [dict], in order. *)
Definition keys (v : option pyval) : list string :=
  match v with
  | Some (PyDict d) => map fst d
  | _ => []
  end.

End PayloadFacts.

(** C3.  [build_payload] is a function of its argument alone, defined on
    every [GeorefData].  Its result has the nested shape of the wire schema,
    with exactly the schema's keys; [north] is the input [north_deg] converted
    to radians, which for 90.0 is the binary64 value of pi/2 (so within 1e-9
    of it); every other field is the input's field as it is. *)
Theorem build_payload_shape :
  forall data : Models.GeorefData,
    let payload := GeorefWriter.build_payload data in
    let field path := PayloadFacts.at_path payload path in
    let pl := Models.project_location data in
    let sp := Models.survey_point data in
    let gp := Models.geo_ref_params data in
    (PayloadFacts.keys (field []) = ["projectLocation"; "surveyPoint"]
     /\ PayloadFacts.keys (field ["projectLocation"])
        = ["longitude"; "latitude"; "altitude"; "north"]
     /\ PayloadFacts.keys (field ["surveyPoint"])
        = ["position"; "geoReferencingParameters"]
     /\ PayloadFacts.keys (field ["surveyPoint"; "position"])
        = ["eastings"; "northings"; "elevation"]
     /\ PayloadFacts.keys (field ["surveyPoint"; "geoReferencingParameters"])
        = ["crsName"; "description"; "geodeticDatum"; "verticalDatum";
           "mapProjection"; "mapZone"])
    /\ field ["projectLocation"; "north"]
       = Some (Py.PyFloat (Py.radians (Models.north_deg pl)))
    /\ (Py.radians 90 = (Py.pi / 2)%float
        /\ (abs (Py.radians 90 - Py.pi / 2) <=? Py.tolerance)%float = true)
    /\ (field ["projectLocation"; "longitude"] = Some (Py.PyFloat (Models.longitude pl))
        /\ field ["projectLocation"; "latitude"] = Some (Py.PyFloat (Models.latitude pl))
        /\ field ["projectLocation"; "altitude"] = Some (Py.PyFloat (Models.altitude pl)))
    /\ (field ["surveyPoint"; "position"; "eastings"]
        = Some (Py.PyFloat (Models.eastings sp))
        /\ field ["surveyPoint"; "position"; "northings"]
           = Some (Py.PyFloat (Models.northings sp))
        /\ field ["surveyPoint"; "position"; "elevation"]
           = Some (Py.PyFloat (Models.elevation sp)))
    /\ (field ["surveyPoint"; "geoReferencingParameters"; "crsName"]
        = Some (Models.crs_name gp)
        /\ field ["surveyPoint"; "geoReferencingParameters"; "description"]
           = Some (Models.description gp)
        /\ field ["surveyPoint"; "geoReferencingParameters"; "geodeticDatum"]
           = Some (Models.geodetic_datum gp)
        /\ field ["surveyPoint"; "geoReferencingParameters"; "verticalDatum"]
           = Some (Models.vertical_datum gp)
        /\ field ["surveyPoint"; "geoReferencingParameters"; "mapProjection"]
           = Some (Models.map_projection gp)
        /\ field ["surveyPoint"; "geoReferencingParameters"; "mapZone"]
           = Some (Models.map_zone gp)).
Proof.
  intros data payload field pl sp gp.
  repeat split; try reflexivity; vm_compute; reflexivity.
Qed.

(* ------------------------------------------------------------------ *)
(** ** Gateway failures *)

(** C8.  When the gateway callable raises [exc], [read_geolocation] and
    [write_geolocation] raise a [RuntimeError] whose text names the command
    that failed and ends with [str(exc)], and whose cause is [exc]; neither
    returns a value.  They wrap nothing else: [write_geolocation] fails only
    when the gateway did. *)
Theorem gateway_failure_wrapped :
  forall (E : Type) (exc_str : E -> string)
         (float_of_str : string -> option float)
         (tapir_fn : Gateway.tapir E) (data : Models.GeorefData),
    (forall exc,
       tapir_fn "GetGeoLocation" None = Err exc ->
       GeorefReader.read_geolocation E exc_str float_of_str tapir_fn
       = Err (Gateway.RuntimeError
                ("Tapir GetGeoLocation failed: " ++ exc_str exc) exc))
    /\ (forall exc,
          tapir_fn "SetGeoLocation" (Some (GeorefWriter.build_payload data)) = Err exc ->
          GeorefWriter.write_geolocation E exc_str tapir_fn data
          = Err (Gateway.RuntimeError
                   ("Tapir SetGeoLocation failed: " ++ exc_str exc) exc))
    /\ (forall result,
          tapir_fn "SetGeoLocation" (Some (GeorefWriter.build_payload data)) = Ok result ->
          GeorefWriter.write_geolocation E exc_str tapir_fn data = Ok result).
Proof.
  intros E exc_str fos tapir_fn data. repeat split.
  - intros exc H. unfold GeorefReader.read_geolocation. rewrite H. reflexivity.
  - intros exc H. unfold GeorefWriter.write_geolocation. rewrite H. reflexivity.
  - intros result H. unfold GeorefWriter.write_geolocation. rewrite H. reflexivity.
Qed.

Lemma gateway_failure_wrapped_witness :
  GeorefReader.read_geolocation string (fun s => s) (fun _ => None)
    (fun _ _ => Err "connection refused")
  = Err (Gateway.RuntimeError
           "Tapir GetGeoLocation failed: connection refused" "connection refused").
Proof.
  apply (proj1 (gateway_failure_wrapped string (fun s => s) (fun _ => None)
                  (fun _ _ => Err "connection refused")
                  Models.default_georef_data)).
  reflexivity.
Defined.

(* ------------------------------------------------------------------ *)
(** ** The coordinate transformer *)

(** C9.  A [CoordTransformer] for two codes holds the pyproj transformer
    built for "EPSG:<src>" and "EPSG:<dst>" with [always_xy=True], the one
    whose first coordinate is the easting or longitude and whose second is the
    northing or latitude whatever the axis order the registry gives the codes;
    [transform(x, y)] hands it [x] and [y] in that order and returns its pair
    in that order.  [survey_to_wgs84] does so with destination code 4326 and
    returns the pair as (longitude, latitude).  The transformer in the
    registry's own axis order ([always_xy=False]) is never consulted. *)
Theorem transform_axis_order :
  forall (E : Type)
         (Transformer_from_crs :
            string -> string -> bool -> result E (CoordTransformer.Transformer E))
         (src dst : Z) (x y : float),
    (forall ct,
       CoordTransformer.__init__ E Transformer_from_crs src dst = Ok ct ->
       Transformer_from_crs ("EPSG:" ++ Text.str_of_int src)
                            ("EPSG:" ++ Text.str_of_int dst) true
       = Ok (CoordTransformer._t ct)
       /\ CoordTransformer.src_epsg ct = src
       /\ CoordTransformer.dst_epsg ct = dst
       /\ (forall x' y',
             CoordTransformer.transform2 (CoordTransformer._t ct) x y = Ok (x', y') ->
             CoordTransformer.transform E ct x y None
             = Ok (CoordTransformer.XY x' y'))
       /\ (forall e,
             CoordTransformer.transform2 (CoordTransformer._t ct) x y = Err e ->
             CoordTransformer.transform E ct x y None = Err e))
    /\ (forall t lon lat,
          Transformer_from_crs ("EPSG:" ++ Text.str_of_int src) "EPSG:4326" true = Ok t ->
          CoordTransformer.transform2 t x y = Ok (lon, lat) ->
          CoordTransformer.survey_to_wgs84 E Transformer_from_crs x y src
          = Ok (lon, lat))
    /\ (forall e,
          Transformer_from_crs ("EPSG:" ++ Text.str_of_int src) "EPSG:4326" true = Err e ->
          CoordTransformer.survey_to_wgs84 E Transformer_from_crs x y src
          = Err (CoordTransformer.Library e))
    /\ (forall other,
          (forall a b, other a b true = Transformer_from_crs a b true) ->
          CoordTransformer.survey_to_wgs84 E other x y src
          = CoordTransformer.survey_to_wgs84 E Transformer_from_crs x y src).
Proof.
  intros E lib src dst x y. repeat split.
  - unfold CoordTransformer.__init__ in H.
    destruct (lib _ _ true) as [e|t]; [discriminate|].
    injection H as <-. reflexivity.
  - unfold CoordTransformer.__init__ in H.
    destruct (lib _ _ true) as [e|t]; [discriminate|]. injection H as <-. reflexivity.
  - unfold CoordTransformer.__init__ in H.
    destruct (lib _ _ true) as [e|t]; [discriminate|]. injection H as <-. reflexivity.
  - intros x' y' Ht. unfold CoordTransformer.transform. rewrite Ht. reflexivity.
  - intros e Ht. unfold CoordTransformer.transform. rewrite Ht. reflexivity.
  - intros t lon lat Hl Ht.
    unfold CoordTransformer.survey_to_wgs84, CoordTransformer.__init__.
    change (Text.str_of_int 4326) with "4326". simpl append at 2.
    rewrite Hl. unfold CoordTransformer.transform. simpl. rewrite Ht. reflexivity.
  - intros e Hl.
    unfold CoordTransformer.survey_to_wgs84, CoordTransformer.__init__.
    change (Text.str_of_int 4326) with "4326". simpl append at 2.
    rewrite Hl. reflexivity.
  - intros other Ho.
    unfold CoordTransformer.survey_to_wgs84, CoordTransformer.__init__.
    rewrite Ho. reflexivity.
Qed.

Lemma transform_axis_order_witness :
  let t := {| CoordTransformer.transform2 := fun x y => @Ok unit _ (x, y);
              CoordTransformer.transform3 := fun x y z => Ok (x, y, z) |} in
  CoordTransformer.survey_to_wgs84 unit (fun _ _ _ => Ok t) 385000 6672000 3067
  = Ok (385000, 6672000)%float.
Proof.
  intros t.
  destruct (transform_axis_order unit (fun _ _ _ => Ok t) 3067 4326
              385000 6672000) as (_ & H & _).
  apply (H t); reflexivity.
Defined.

(* ------------------------------------------------------------------ *)
(** ** The reader on gateway responses *)

Module ReaderFacts.

Import Py Models Gateway GeorefReader.

Section Wire.

Variable E : Type.
Variable exc_str : E -> string.
Variable float_of_str : string -> option float.

(** [float(v)] returns. *)
Definition converts (v : pyval) : bool :=
  match float_of float_of_str v with Ok _ => true | Err _ => false end.

(** Every value the block holds under one of [keys] is one [float()]
    accepts. *)
Definition numbers_under (keys : list string) (blk : list (string * pyval)) : bool :=
  forallb (fun k => match lookup k blk with
                    | Some v => converts v
                    | None => true
                    end) keys.

(** A section of a response: missing, false in a condition (null, empty),
    or a mapping that [check] accepts. *)
Definition section_ok (check : list (string * pyval) -> bool) (v : option pyval)
  : bool :=
  match v with
  | None => true
  | Some x =>
      negb (truthy x)
      || match x with PyDict blk => check blk | _ => false end
  end.

(** A response of the shape of the wire schema: each of its sections and
    sub-blocks is missing, false, or a mapping, and what stands where the
    schema has a number is a number to [float()].  Keys may be missing at
    every level. *)
Definition wire_response (d : list (string * pyval)) : bool :=
  section_ok (numbers_under ["longitude"; "latitude"; "altitude"; "north"])
             (lookup "projectLocation" d)
  && section_ok
       (fun sp =>
          section_ok (numbers_under ["eastings"; "northings"; "elevation"])
                     (lookup "position" sp)
          && section_ok (fun _ => true) (lookup "geoReferencingParameters" sp))
       (lookup "surveyPoint" d).

(** The mapping a section holds, empty when the section is missing or
    false. *)
Definition block (v : option pyval) : list (string * pyval) :=
  match v with
  | Some (PyDict blk) => blk
  | _ => []
  end.

(** The number under [k], 0.0 when the key is missing. *)
Definition number_at (blk : list (string * pyval)) (k : string) : float :=
  match lookup k blk with
  | Some v => match float_of float_of_str v with Ok f => f | Err _ => 0%float end
  | None => 0%float
  end.

(** The value under [k], the empty string when the key is missing. *)
Definition text_at (blk : list (string * pyval)) (k : string) : pyval :=
  match lookup k blk with
  | Some v => v
  | None => PyStr ""
  end.

(** What a response of the wire shape reads as. *)
Definition reading (d : list (string * pyval)) : GeorefData :=
  let pl := block (lookup "projectLocation" d) in
  let sp := block (lookup "surveyPoint" d) in
  let pos := block (lookup "position" sp) in
  let gp := block (lookup "geoReferencingParameters" sp) in
  {| project_location :=
       {| longitude := number_at pl "longitude";
          latitude := number_at pl "latitude";
          altitude := number_at pl "altitude";
          north_deg := degrees (number_at pl "north") |};
     survey_point :=
       {| eastings := number_at pos "eastings";
          northings := number_at pos "northings";
          elevation := number_at pos "elevation" |};
     geo_ref_params :=
       {| crs_name := text_at gp "crsName";
          description := text_at gp "description";
          geodetic_datum := text_at gp "geodeticDatum";
          vertical_datum := text_at gp "verticalDatum";
          map_projection := text_at gp "mapProjection";
          map_zone := text_at gp "mapZone" |} |}.

Lemma get_float_number blk k :
  match lookup k blk with Some v => converts v | None => true end = true ->
  get_float float_of_str (PyDict blk) k = Ok (number_at blk k).
Proof.
  unfold get_float, get, number_at, converts.
  destruct (lookup k blk) as [v|]; [|intros _; reflexivity].
  destruct (float_of float_of_str v); [discriminate | reflexivity].
Qed.

(** A section that is accepted is false, or a non-empty mapping. *)
Lemma section_cases check v :
  section_ok check v = true ->
  (truthy (or_empty_dict (match v with Some x => x | None => PyNone end)) = false
   /\ block v = [])
  \/ (exists blk, v = Some (PyDict blk) /\ blk <> [] /\ check blk = true).
Proof.
  destruct v as [x|]; simpl; [|auto].
  unfold or_empty_dict. destruct (truthy x) eqn:Ht; simpl.
  - destruct x as [| | | | | |blk]; try discriminate. intros Hc. right.
    exists blk. repeat split; [|exact Hc]. intros ->. discriminate.
  - intros _. left. split; [reflexivity|].
    destruct x as [| | | | | |blk]; try reflexivity.
    destruct blk; [reflexivity | discriminate].
Qed.

Lemma degrees_zero : degrees 0 = 0%float.
Proof. reflexivity. Qed.

Lemma read_project_location_wire v data :
  section_ok (numbers_under ["longitude"; "latitude"; "altitude"; "north"]) v = true ->
  project_location data = default_project_location ->
  read_project_location E float_of_str
    (or_empty_dict (match v with Some x => x | None => PyNone end)) data
  = Ok (with_project_location data
          {| longitude := number_at (block v) "longitude";
             latitude := number_at (block v) "latitude";
             altitude := number_at (block v) "altitude";
             north_deg := degrees (number_at (block v) "north") |}).
Proof.
  intros Hs Hd. unfold read_project_location.
  destruct (section_cases _ _ Hs) as [(Hf & Hb) | (blk & -> & Hne & Hc)].
  - rewrite Hf, Hb. unfold number_at. cbn [lookup]. rewrite degrees_zero.
    unfold with_project_location. destruct data; simpl in *. subst. reflexivity.
  - assert (Ht : truthy (or_empty_dict (PyDict blk)) = true)
      by (destruct blk; [congruence | reflexivity]).
    assert (Ho : or_empty_dict (PyDict blk) = PyDict blk)
      by (destruct blk; [congruence | reflexivity]).
    rewrite Ho. simpl truthy. destruct blk as [|b blk']; [congruence|].
    simpl in Hc. rewrite !andb_true_iff in Hc.
    destruct Hc as (H1 & H2 & H3 & H4 & _).
    rewrite !get_float_number by assumption. reflexivity.
Qed.

Lemma or_empty_dict_block check v :
  section_ok check v = true ->
  or_empty_dict (match v with Some x => x | None => PyNone end) = PyDict (block v).
Proof.
  intros Hs. destruct (section_cases _ _ Hs) as [(Hf & Hb) | (blk & -> & Hne & _)].
  - rewrite Hb. unfold or_empty_dict in *.
    destruct (truthy match v with Some x => x | None => PyNone end) eqn:Ht;
      [rewrite Ht in Hf; congruence | reflexivity].
  - destruct blk; [congruence | reflexivity].
Qed.

Lemma get_or_none blk k :
  get (PyDict blk) k PyNone
  = Ok (match lookup k blk with Some x => x | None => PyNone end).
Proof. reflexivity. Qed.

Lemma read_survey_point_wire v data :
  section_ok
    (fun sp =>
       section_ok (numbers_under ["eastings"; "northings"; "elevation"])
                  (lookup "position" sp)
       && section_ok (fun _ => true) (lookup "geoReferencingParameters" sp)) v = true ->
  survey_point data = default_survey_point ->
  geo_ref_params data = default_geo_ref_params ->
  let pos := block (lookup "position" (block v)) in
  let gp := block (lookup "geoReferencingParameters" (block v)) in
  read_survey_point E float_of_str
    (or_empty_dict (match v with Some x => x | None => PyNone end)) data
  = Ok {| project_location := project_location data;
          survey_point :=
            {| eastings := number_at pos "eastings";
               northings := number_at pos "northings";
               elevation := number_at pos "elevation" |};
          geo_ref_params :=
            {| crs_name := text_at gp "crsName";
               description := text_at gp "description";
               geodetic_datum := text_at gp "geodeticDatum";
               vertical_datum := text_at gp "verticalDatum";
               map_projection := text_at gp "mapProjection";
               map_zone := text_at gp "mapZone" |} |}.
Proof.
  intros Hs Hsp Hgp pos gp. unfold read_survey_point.
  destruct (section_cases _ _ Hs) as [(Hf & Hb) | (sp & -> & Hne & Hc)].
  - rewrite Hf. unfold pos, gp. rewrite Hb. cbn [lookup block].
    unfold number_at, text_at. cbn [lookup].
    destruct data; simpl in *. subst. reflexivity.
  - assert (Ho : or_empty_dict (PyDict sp) = PyDict sp)
      by (destruct sp; [congruence | reflexivity]).
    rewrite Ho. replace (truthy (PyDict sp)) with true
      by (destruct sp; [congruence | reflexivity]).
    apply andb_true_iff in Hc. destruct Hc as (Hpos & Hg).
    cbn [block] in pos, gp.
    rewrite get_or_none. cbn [uncaught bind].
    rewrite (or_empty_dict_block _ _ Hpos). fold pos.
    assert (Hn : numbers_under ["eastings"; "northings"; "elevation"] pos = true).
    { destruct (section_cases _ _ Hpos) as [(_ & Hb) | (blk & Hl & _ & Hk)].
      - unfold pos. rewrite Hb. reflexivity.
      - unfold pos. rewrite Hl. exact Hk. }
    simpl in Hn. rewrite !andb_true_iff in Hn. destruct Hn as (H1 & H2 & H3 & _).
    rewrite !get_float_number by assumption. cbn [uncaught bind].
    rewrite get_or_none. cbn [uncaught bind].
    rewrite (or_empty_dict_block _ _ Hg). fold gp.
    reflexivity.
Qed.

(** A response of the wire shape is read without an error, as [reading]
    says. *)
Lemma read_wire (tapir_fn : tapir E) d :
  tapir_fn "GetGeoLocation" None = Ok (PyDict d) ->
  wire_response d = true ->
  read_geolocation E exc_str float_of_str tapir_fn = Ok (reading d).
Proof.
  intros Ht Hw. unfold read_geolocation. rewrite Ht.
  unfold wire_response in Hw. apply andb_true_iff in Hw. destruct Hw as (Hpl & Hsp).
  rewrite get_or_none. cbn [uncaught bind].
  rewrite (read_project_location_wire _ default_georef_data Hpl eq_refl).
  cbn [bind]. rewrite get_or_none. cbn [uncaught bind].
  rewrite read_survey_point_wire by (assumption || reflexivity). reflexivity.
Qed.

End Wire.

End ReaderFacts.

(** C5.  A gateway response without the [surveyPoint] section reads as a
    [GeorefData] whose survey point and CRS parameters are the defaults (0.0
    and the empty string), and one without [projectLocation] as one whose
    project location is the default; with both missing the result is
    [GeorefData()].  No error is raised: the missing section raises none
    whatever else the response holds, and a response of the wire shape is
    read without any error. *)
Theorem reader_missing_section :
  forall (E : Type) (exc_str : E -> string)
         (float_of_str : string -> option float)
         (tapir_fn : Gateway.tapir E) (d : list (string * Py.pyval)),
    tapir_fn "GetGeoLocation" None = Ok (Py.PyDict d) ->
    let read := GeorefReader.read_geolocation E exc_str float_of_str tapir_fn in
    (Py.lookup "surveyPoint" d = None ->
     forall data, read = Ok data ->
       Models.survey_point data = Models.default_survey_point
       /\ Models.geo_ref_params data = Models.default_geo_ref_params)
    /\ (Py.lookup "projectLocation" d = None ->
        forall data, read = Ok data ->
          Models.project_location data = Models.default_project_location)
    /\ (Py.lookup "surveyPoint" d = None ->
        Py.lookup "projectLocation" d = None ->
        read = Ok Models.default_georef_data)
    /\ (ReaderFacts.wire_response float_of_str d = true ->
        exists data,
          read = Ok data
          /\ (Py.lookup "surveyPoint" d = None ->
              Models.survey_point data = Models.default_survey_point
              /\ Models.geo_ref_params data = Models.default_geo_ref_params)
          /\ (Py.lookup "projectLocation" d = None ->
              Models.project_location data = Models.default_project_location)).
Proof.
  intros E exc_str float_of_str tapir_fn d Ht read.
  assert (Hsp : Py.lookup "surveyPoint" d = None ->
                forall data, read = Ok data ->
                  Models.survey_point data = Models.default_survey_point
                  /\ Models.geo_ref_params data = Models.default_geo_ref_params).
  { intros Hs data. unfold read, GeorefReader.read_geolocation. rewrite Ht.
    rewrite !ReaderFacts.get_or_none. cbn [GeorefReader.uncaught GeorefReader.bind].
    rewrite Hs. unfold GeorefReader.read_project_location.
    destruct (Py.truthy _); cbn [GeorefReader.bind].
    - destruct (GeorefReader.get_float _ _ "longitude"); cbn; [discriminate|].
      destruct (GeorefReader.get_float _ _ "latitude"); cbn; [discriminate|].
      destruct (GeorefReader.get_float _ _ "altitude"); cbn; [discriminate|].
      destruct (GeorefReader.get_float _ _ "north"); cbn; [discriminate|].
      intros H. injection H as H. subst data. split; reflexivity.
    - cbn. intros H. injection H as H. subst data. split; reflexivity. }
  assert (Hpl : Py.lookup "projectLocation" d = None ->
                forall data, read = Ok data ->
                  Models.project_location data = Models.default_project_location).
  { intros Hp data. unfold read, GeorefReader.read_geolocation. rewrite Ht.
    rewrite !ReaderFacts.get_or_none. cbn [GeorefReader.uncaught GeorefReader.bind].
    rewrite Hp. cbn [Py.or_empty_dict Py.truthy GeorefReader.read_project_location
                     GeorefReader.bind].
    unfold GeorefReader.read_survey_point.
    destruct (Py.truthy _); [|intros H; injection H as H; subst data; reflexivity].
    repeat (match goal with
            | |- GeorefReader.bind _ (GeorefReader.uncaught _ ?r) _ = _ -> _ =>
                destruct r; cbn [GeorefReader.uncaught GeorefReader.bind];
                [discriminate|]
            end).
    intros H. injection H as H. subst data. reflexivity. }
  split; [exact Hsp|]. split; [exact Hpl|]. split.
  - intros Hs Hp. unfold read, GeorefReader.read_geolocation. rewrite Ht.
    rewrite !ReaderFacts.get_or_none. rewrite Hs, Hp. reflexivity.
  - intros Hw. exists (ReaderFacts.reading float_of_str d).
    assert (Hr : read = Ok (ReaderFacts.reading float_of_str d))
      by (apply ReaderFacts.read_wire; assumption).
    split; [exact Hr|]. split.
    + intros Hs. exact (Hsp Hs _ Hr).
    + intros Hp. exact (Hpl Hp _ Hr).
Qed.

Lemma reader_missing_section_witness :
  let d := [("projectLocation",
             Py.PyDict [("longitude", Py.PyFloat 24.5); ("latitude", Py.PyFloat 60.25)])] in
  exists data,
    GeorefReader.read_geolocation unit (fun _ => "") (fun _ => None)
      (fun _ _ => Ok (Py.PyDict d)) = Ok data
    /\ Models.survey_point data = Models.default_survey_point
    /\ Models.geo_ref_params data = Models.default_geo_ref_params.
Proof.
  intros d.
  destruct (reader_missing_section unit (fun _ => "") (fun _ => None)
              (fun _ _ => Ok (Py.PyDict d)) d eq_refl) as (_ & _ & _ & H).
  destruct (H eq_refl) as (data & Hr & Hs & _).
  exists data. split; [exact Hr | exact (Hs eq_refl)].
Defined.

(** C10.  A gateway response of the wire shape is read without an error,
    and a key missing inside a section that is there reads as the default
    of its field: 0.0 for [longitude], [latitude], [altitude] and for
    [north_deg] when [north] is missing; 0.0 for the three position fields
    when [position] or the key is missing; the empty string for a CRS field
    when [geoReferencingParameters] or the key is missing. *)
Theorem reader_missing_keys :
  forall (E : Type) (exc_str : E -> string)
         (float_of_str : string -> option float)
         (tapir_fn : Gateway.tapir E) (d : list (string * Py.pyval)),
    tapir_fn "GetGeoLocation" None = Ok (Py.PyDict d) ->
    ReaderFacts.wire_response float_of_str d = true ->
    exists data,
      GeorefReader.read_geolocation E exc_str float_of_str tapir_fn = Ok data
      /\ (forall pl,
            Py.lookup "projectLocation" d = Some (Py.PyDict pl) ->
            let loc := Models.project_location data in
            (Py.lookup "longitude" pl = None -> Models.longitude loc = 0%float)
            /\ (Py.lookup "latitude" pl = None -> Models.latitude loc = 0%float)
            /\ (Py.lookup "altitude" pl = None -> Models.altitude loc = 0%float)
            /\ (Py.lookup "north" pl = None -> Models.north_deg loc = 0%float))
      /\ (forall sp,
            Py.lookup "surveyPoint" d = Some (Py.PyDict sp) ->
            let pt := Models.survey_point data in
            let gp := Models.geo_ref_params data in
            (Py.lookup "position" sp = None ->
             pt = Models.default_survey_point)
            /\ (forall pos,
                  Py.lookup "position" sp = Some (Py.PyDict pos) ->
                  (Py.lookup "eastings" pos = None -> Models.eastings pt = 0%float)
                  /\ (Py.lookup "northings" pos = None -> Models.northings pt = 0%float)
                  /\ (Py.lookup "elevation" pos = None -> Models.elevation pt = 0%float))
            /\ (Py.lookup "geoReferencingParameters" sp = None ->
                gp = Models.default_geo_ref_params)
            /\ (forall prm,
                  Py.lookup "geoReferencingParameters" sp = Some (Py.PyDict prm) ->
                  (Py.lookup "crsName" prm = None ->
                   Models.crs_name gp = Py.PyStr "")
                  /\ (Py.lookup "description" prm = None ->
                      Models.description gp = Py.PyStr "")
                  /\ (Py.lookup "geodeticDatum" prm = None ->
                      Models.geodetic_datum gp = Py.PyStr "")
                  /\ (Py.lookup "verticalDatum" prm = None ->
                      Models.vertical_datum gp = Py.PyStr "")
                  /\ (Py.lookup "mapProjection" prm = None ->
                      Models.map_projection gp = Py.PyStr "")
                  /\ (Py.lookup "mapZone" prm = None ->
                      Models.map_zone gp = Py.PyStr ""))).
Proof.
  intros E exc_str float_of_str tapir_fn d Ht Hw.
  exists (ReaderFacts.reading float_of_str d).
  split; [apply ReaderFacts.read_wire; assumption|].
  unfold ReaderFacts.reading. cbn [Models.project_location Models.survey_point
                                   Models.geo_ref_params].
  split.
  - intros pl Hpl. cbv zeta. rewrite Hpl. cbn [ReaderFacts.block].
    cbn [Models.longitude Models.latitude Models.altitude Models.north_deg].
    unfold ReaderFacts.number_at.
    repeat split; intros ->; reflexivity.
  - intros sp Hsp. cbv zeta. rewrite Hsp. cbn [ReaderFacts.block].
    split; [|split; [|split]].
    + intros ->. reflexivity.
    + intros pos ->. cbn [ReaderFacts.block].
      cbn [Models.eastings Models.northings Models.elevation].
      unfold ReaderFacts.number_at. repeat split; intros ->; reflexivity.
    + intros ->. reflexivity.
    + intros prm ->. cbn [ReaderFacts.block].
      cbn [Models.crs_name Models.description Models.geodetic_datum
           Models.vertical_datum Models.map_projection Models.map_zone].
      unfold ReaderFacts.text_at. repeat split; intros ->; reflexivity.
Qed.

Lemma reader_missing_keys_witness :
  let d := [("projectLocation",
             Py.PyDict [("longitude", Py.PyFloat 24.5); ("latitude", Py.PyInt 60)]);
            ("surveyPoint",
             Py.PyDict [("position", Py.PyDict [("eastings", Py.PyFloat 385000)]);
                        ("geoReferencingParameters",
                         Py.PyDict [("crsName", Py.PyStr "ETRS89 / TM35FIN(E,N)")])])] in
  exists data,
    GeorefReader.read_geolocation unit (fun _ => "") (fun _ => None)
      (fun _ _ => Ok (Py.PyDict d)) = Ok data
    /\ Models.north_deg (Models.project_location data) = 0%float
    /\ Models.northings (Models.survey_point data) = 0%float
    /\ Models.map_zone (Models.geo_ref_params data) = Py.PyStr "".
Proof.
  intros d.
  destruct (reader_missing_keys unit (fun _ => "") (fun _ => None)
              (fun _ _ => Ok (Py.PyDict d)) d eq_refl eq_refl)
    as (data & Hr & Hpl & Hsp).
  exists data. split; [exact Hr|].
  destruct (Hpl _ eq_refl) as (_ & _ & _ & Hn).
  destruct (Hsp _ eq_refl) as (_ & Hpos & _ & Hgp).
  destruct (Hpos _ eq_refl) as (_ & Hno & _).
  destruct (Hgp _ eq_refl) as (_ & _ & _ & _ & _ & Hz).
  split; [exact (Hn eq_refl)|]. split; [exact (Hno eq_refl) | exact (Hz eq_refl)].
Defined.

(* ------------------------------------------------------------------ *)
(** ** Rounding in binary64: the error of the angle conversions

    [radians] and [degrees] are binary64 products; the kernel's floats are
    specified by [SpecFloat] ([mul_spec], [sub_spec], ...), whose products
    round the exact product with [binary_round_aux]. *)

Module Rounding.

Local Open Scope Z_scope.

(** ** Shifting a mantissa right, with its round and sticky bits *)

(** After [k] shifts of the mantissa [M]: the record holds the quotient, the
    last bit shifted out and whether any bit before it was set. *)
Definition shifted (M k : Z) (mrs : shr_record) : Prop :=
  exists low,
    2 * M = shr_m mrs * 2 ^ (k + 1) + Z.b2z (shr_r mrs) * 2 ^ k + low
    /\ 0 <= low < 2 ^ k
    /\ (shr_s mrs = false <-> low = 0)
    /\ 0 <= shr_m mrs.

Lemma shifted_start M : 0 <= M -> shifted M 0 (shr_record_of_loc M loc_Exact).
Proof.
  intros HM. exists 0. cbn [shr_record_of_loc shr_m shr_r shr_s Z.b2z].
  change (2 ^ (0 + 1)) with 2. change (2 ^ 0) with 1.
  repeat split; lia.
Qed.

Lemma shr_1_halves m r s :
  0 <= m ->
  exists q b, m = 2 * q + Z.b2z b /\ 0 <= q
              /\ shr_1 (Build_shr_record m r s) = Build_shr_record q b (r || s).
Proof.
  intros Hm. destruct m as [|[p|p|]|p]; try lia.
  - exists 0, false. simpl. repeat split; lia.
  - exists (Zpos p), true. simpl. repeat split; lia.
  - exists (Zpos p), false. simpl. repeat split; lia.
  - exists 0, true. simpl. repeat split; lia.
Qed.

Lemma shifted_step M k mrs :
  0 <= k -> shifted M k mrs -> shifted M (k + 1) (shr_1 mrs).
Proof.
  intros Hk (low & HM & Hlow & Hs & Hm).
  destruct mrs as [m r s]. cbn [shr_m shr_r shr_s] in HM, Hlow, Hs, Hm.
  destruct (shr_1_halves m r s Hm) as (q & b & Hq & Hq0 & ->).
  exists (Z.b2z r * 2 ^ k + low). cbn [shr_m shr_r shr_s].
  assert (Hp : 2 ^ (k + 1) = 2 * 2 ^ k) by (rewrite Z.pow_add_r by lia; lia).
  assert (Hp2 : 2 ^ (k + 1 + 1) = 4 * 2 ^ k)
    by (rewrite !Z.pow_add_r by lia; lia).
  assert (Hpos : 0 < 2 ^ k) by (apply Z.pow_pos_nonneg; lia).
  rewrite Hp, Hp2. repeat split.
  - rewrite Hp in HM. subst m. generalize dependent (2 ^ k). intros P.
    intros. destruct b, r; simpl Z.b2z in *; nia.
  - destruct r; cbn [Z.b2z]; lia.
  - destruct r; cbn [Z.b2z]; lia.
  - destruct r, s; cbn [Z.b2z orb]; intros H; try discriminate.
    assert (low = 0) by (apply Hs; reflexivity). lia.
  - destruct r, s; cbn [Z.b2z orb]; intros H; try reflexivity; try lia.
  - exact Hq0.
Qed.

Lemma shifted_iter M p : forall k mrs,
  0 <= k -> shifted M k mrs -> shifted M (k + Zpos p) (SpecFloat.iter_pos shr_1 p mrs).
Proof.
  induction p as [p IH | p IH |]; intros k mrs Hk H; simpl.
  - replace (k + Zpos p~1) with (k + 1 + Zpos p + Zpos p) by lia.
    apply IH; [lia|]. apply IH; [lia|]. apply shifted_step; assumption.
  - replace (k + Zpos p~0) with (k + Zpos p + Zpos p) by lia.
    apply IH; [lia|]. apply IH; assumption.
  - apply shifted_step; assumption.
Qed.

(** Rounding the shifted mantissa to nearest, ties to even, is within half
    a unit of the mantissa that was shifted. *)
Lemma round_shifted M n mrs :
  0 < n -> shifted M n mrs ->
  let m2 := round_nearest_even (shr_m mrs) (loc_of_shr_record mrs) in
  0 <= m2 /\ Z.abs (2 * (m2 * 2 ^ n - M)) <= 2 ^ n.
Proof.
  intros Hn (low & HM & Hlow & Hs & Hm). destruct mrs as [m r s].
  cbn [shr_m shr_r shr_s] in *.
  assert (Hp : 2 ^ (n + 1) = 2 * 2 ^ n) by (rewrite Z.pow_add_r by lia; lia).
  rewrite Hp in HM.
  generalize dependent (2 ^ n). intros P; intros.
  destruct r, s; cbn [loc_of_shr_record round_nearest_even Z.b2z] in *.
  - split; lia.
  - assert (low = 0) by (apply Hs; reflexivity).
    destruct (Z.even m); split; lia.
  - split; lia.
  - assert (low = 0) by (apply Hs; reflexivity). split; lia.
Qed.

(** ** The number of binary digits *)

Lemma digits2_bounds p :
  2 ^ (Zpos (digits2_pos p) - 1) <= Zpos p < 2 ^ Zpos (digits2_pos p).
Proof.
  induction p as [p IH | p IH |]; cbn [digits2_pos].
  - rewrite Pos2Z.inj_succ. replace (Z.succ (Zpos (digits2_pos p)) - 1)
      with (Z.succ (Zpos (digits2_pos p) - 1)) by lia.
    rewrite !Z.pow_succ_r by lia. lia.
  - rewrite Pos2Z.inj_succ. replace (Z.succ (Zpos (digits2_pos p)) - 1)
      with (Z.succ (Zpos (digits2_pos p) - 1)) by lia.
    rewrite !Z.pow_succ_r by lia. lia.
  - change (2 ^ (1 - 1)) with 1. change (2 ^ 1) with 2. lia.
Qed.

Lemma digits2_le p k : 0 <= k -> Zpos p < 2 ^ k -> Zpos (digits2_pos p) <= k.
Proof.
  intros Hk Hp. destruct (digits2_bounds p) as [Hlo _].
  destruct (Z_le_gt_dec (Zpos (digits2_pos p)) k) as [H|H]; [exact H|].
  assert (2 ^ k <= 2 ^ (Zpos (digits2_pos p) - 1)) by (apply Z.pow_le_mono_r; lia).
  lia.
Qed.

(** ** [binary_round_aux] on an exact mantissa, in binary64 *)

(** The float of sign [s], mantissa [m] and exponent [e]. *)
Definition mk (s : bool) (m e : Z) : spec_float :=
  match m with
  | Z0 => S754_zero s
  | Zpos p => S754_finite s p e
  | Zneg _ => S754_nan
  end.

Lemma fexp_eq e : fexp prec emax e = Z.max (e - 53) (-1074).
Proof. reflexivity. Qed.

Lemma shr_fexp_fits m e :
  0 <= m -> Zdigits2 m + e - 53 <= e -> -1074 <= e ->
  shr_fexp prec emax m e loc_Exact = (shr_record_of_loc m loc_Exact, e).
Proof.
  intros Hm Hd He. unfold shr_fexp, shr. rewrite fexp_eq.
  destruct (Z.max (Zdigits2 m + e - 53) (-1074) - e) eqn:Hn; try reflexivity. lia.
Qed.

Lemma binary_round_aux_exact s M E :
  let e1 := fexp prec emax (Zpos (digits2_pos M) + E) in
  Zpos (digits2_pos M) + E <= 971 ->
  exists m' e',
    0 <= m' /\ E <= e'
    /\ binary_round_aux prec emax s (Zpos M) E loc_Exact = mk s m' e'
    /\ Z.abs (2 * (m' * 2 ^ (e' - E) - Zpos M))
       <= (if E <? e1 then 2 ^ (e1 - E) else 0).
Proof.
  intros e1 Hfit. unfold binary_round_aux.
  pose proof (digits2_bounds M) as HdM.
  assert (He1 : e1 = Z.max (Zpos (digits2_pos M) + E - 53) (-1074)) by reflexivity.
  destruct (E <? e1) eqn:Hlt.
  - (* the mantissa is shifted right by [e1 - E] *)
    apply Z.ltb_lt in Hlt.
    unfold shr_fexp at 1. cbn [Zdigits2]. fold e1. unfold shr.
    destruct (e1 - E) as [|p|p] eqn:Hn; try lia.
    assert (Hsh : shifted (Zpos M) (0 + Zpos p)
                    (SpecFloat.iter_pos shr_1 p (shr_record_of_loc (Zpos M) loc_Exact)))
      by (apply shifted_iter; [lia | apply shifted_start; lia]).
    cbn [Z.add] in Hsh.
    destruct (round_shifted _ _ _ (Pos2Z.is_pos p) Hsh) as (Hm2 & Hb).
    set (m2 := round_nearest_even _ _) in *.
    replace (E + Zpos p) with e1 by lia.
    assert (Hpn : 0 < 2 ^ Zpos p) by (apply Z.pow_pos_nonneg; lia).
    assert (Hd53 : Zpos M < 2 ^ (Zpos p + 53)).
    { apply Z.lt_le_trans with (1 := proj2 HdM). apply Z.pow_le_mono_r; lia. }
    rewrite Z.pow_add_r in Hd53 by lia.
    assert (Hm2le : m2 <= 2 ^ 53) by nia.
    destruct (Z.eq_dec m2 (2 ^ 53)) as [Hc|Hc].
    + (* the rounded mantissa has 54 digits: one more shift *)
      rewrite Hc. unfold shr_fexp, shr. rewrite fexp_eq.
      change (Zdigits2 (2 ^ 53)) with 54.
      replace (Z.max (54 + e1 - 53) (-1074) - e1) with 1 by lia.
      cbn [SpecFloat.iter_pos shr_record_of_loc shr_1 shr_m].
      change (2 ^ 53) with 9007199254740992.
      cbn [shr_1 shr_m].
      replace (e1 + 1 <=? emax - prec) with true
        by (symmetry; apply Z.leb_le; change (emax - prec) with 971; lia).
      exists (2 ^ 52), (e1 + 1). split; [apply Z.pow_nonneg; lia|].
      split; [lia|]. split; [reflexivity|].
      replace (e1 + 1 - E) with (Zpos p + 1) by lia.
      rewrite Z.pow_add_r by lia. rewrite Hc in Hb.
      change (2 ^ 52 * (2 ^ Zpos p * 2 ^ 1)) with (2 ^ 52 * (2 ^ Zpos p * 2)).
      replace (2 ^ 52 * (2 ^ Zpos p * 2)) with (2 ^ 53 * 2 ^ Zpos p)
        by (change (2 ^ 53) with (2 ^ 52 * 2); ring).
      exact Hb.
    + rewrite shr_fexp_fits; [|exact Hm2| |lia].
      * cbn [shr_record_of_loc shr_m].
        exists m2, e1. split; [exact Hm2|]. split; [lia|]. split.
        -- unfold mk. destruct m2 as [|q|q]; try reflexivity.
           replace (e1 <=? emax - prec) with true
             by (symmetry; apply Z.leb_le; change (emax - prec) with 971; lia).
           reflexivity.
        -- rewrite Hn. exact Hb.
      * destruct m2 as [|q|q]; [cbn [Zdigits2]; lia| |lia].
        cbn [Zdigits2]. assert (Zpos (digits2_pos q) <= 53); [|lia].
        apply digits2_le; lia.
  - (* the mantissa fits as it is *)
    apply Z.ltb_ge in Hlt.
    rewrite shr_fexp_fits; [|lia|cbn [Zdigits2]; lia|lia].
    cbn [shr_record_of_loc shr_m loc_of_shr_record round_nearest_even].
    rewrite shr_fexp_fits; [|lia|cbn [Zdigits2]; lia|lia].
    cbn [shr_record_of_loc shr_m].
    replace (E <=? emax - prec) with true
      by (symmetry; apply Z.leb_le; change (emax - prec) with 971; lia).
    exists (Zpos M), E. split; [lia|]. split; [lia|]. split; [reflexivity|].
    rewrite Z.sub_diag. change (2 ^ 0) with 1. lia.
Qed.

End Rounding.

Module RoundingError.

Import Rounding.
Local Open Scope R_scope.

Definition pow2 (e : Z) : R := powerRZ 2 e.

Lemma pow2_pos e : 0 < pow2 e.
Proof. apply powerRZ_lt. lra. Qed.

Lemma pow2_add a b : pow2 (a + b) = pow2 a * pow2 b.
Proof. apply powerRZ_add. lra. Qed.

Lemma pow2_IZR n : (0 <= n)%Z -> IZR (2 ^ n) = pow2 n.
Proof.
  intros Hn. unfold pow2. rewrite <- (Z2Nat.id n) by exact Hn.
  rewrite <- pow_powerRZ, pow_IZR. reflexivity.
Qed.

Lemma pow2_le a b : (a <= b)%Z -> pow2 a <= pow2 b.
Proof.
  intros H. replace b with (a + (b - a))%Z by lia. rewrite pow2_add.
  rewrite <- (pow2_IZR (b - a)) by lia.
  assert (1 <= IZR (2 ^ (b - a))).
  { apply IZR_le. assert (0 < 2 ^ (b - a))%Z by (apply Z.pow_pos_nonneg; lia). lia. }
  pose proof (pow2_pos a). nra.
Qed.

Lemma pow2_1 : pow2 1 = 2.
Proof. unfold pow2. simpl. lra. Qed.

Lemma pow2_lt a b : (a < b)%Z -> pow2 a < pow2 b.
Proof.
  intros H. apply Rlt_le_trans with (pow2 (a + 1)).
  - rewrite pow2_add, pow2_1. pose proof (pow2_pos a). lra.
  - apply pow2_le. lia.
Qed.

Lemma pow2_le_inv a b : pow2 a <= pow2 b -> (a <= b)%Z.
Proof.
  intros H. destruct (Z_le_gt_dec a b) as [Hle|Hgt]; [exact Hle|].
  assert (pow2 b < pow2 a) by (apply pow2_lt; lia). lra.
Qed.

Lemma Rabs_bound x a : Rabs x <= a -> - a <= x <= a.
Proof. unfold Rabs. destruct (Rcase_abs x); lra. Qed.

(** The magnitude of a float: 0 for what is not finite. *)
Definition mag (x : spec_float) : R :=
  match x with
  | S754_finite _ m e => IZR (Zpos m) * pow2 e
  | _ => 0
  end.

(** A zero or a finite number of sign [s]. *)
Definition fin (s : bool) (x : spec_float) : Prop :=
  match x with
  | S754_zero s' | S754_finite s' _ _ => s' = s
  | _ => False
  end.

Lemma mag_nonneg x : 0 <= mag x.
Proof.
  destruct x; simpl; try lra.
  pose proof (pow2_pos e). assert (0 < IZR (Zpos m)) by (apply IZR_lt; lia). nra.
Qed.

Lemma mag_mk s m e : (0 <= m)%Z -> mag (mk s m e) = IZR m * pow2 e /\ fin s (mk s m e).
Proof.
  intros Hm. destruct m as [|p|p]; simpl; [split; [lra | reflexivity] | auto | lia].
Qed.

(** The relative and the absolute error of a rounding. *)
Definition u : R := pow2 (-53).
Definition eta : R := pow2 (-1075).

(** Rounding an exact value to binary64: the result is within
    [u * value + eta] of it. *)
Lemma binary_round_aux_error s M E :
  IZR (Zpos M) * pow2 E <= pow2 900 ->
  let res := binary_round_aux prec emax s (Zpos M) E loc_Exact in
  fin s res
  /\ Rabs (mag res - IZR (Zpos M) * pow2 E) <= u * (IZR (Zpos M) * pow2 E) + eta.
Proof.
  intros Hv res.
  pose proof (digits2_bounds M) as [Hlo Hhi].
  set (dg := Zpos (digits2_pos M)) in *.
  assert (Hdg : (dg + E <= 971)%Z).
  { assert (pow2 (dg - 1 + E) <= pow2 900).
    { rewrite pow2_add. rewrite <- pow2_IZR by (unfold dg; lia).
      apply IZR_le in Hlo. pose proof (pow2_pos E). nra. }
    apply pow2_le_inv in H. lia. }
  destruct (binary_round_aux_exact s M E Hdg) as (m' & e' & Hm' & He' & Hres & Hb).
  fold dg in Hb. unfold res. rewrite Hres.
  destruct (mag_mk s m' e' Hm') as [-> Hfin]. split; [exact Hfin|].
  replace (IZR m' * pow2 e' - IZR (Zpos M) * pow2 E)
    with (IZR (m' * 2 ^ (e' - E) - Zpos M) * pow2 E).
  2:{ rewrite minus_IZR, mult_IZR, pow2_IZR by lia.
      replace e' with ((e' - E) + E)%Z at 2 by lia. rewrite pow2_add. ring. }
  rewrite Rabs_mult, (Rabs_pos_eq (pow2 E)) by (apply Rlt_le, pow2_pos).
  rewrite <- abs_IZR.
  pose proof (pow2_pos E) as HE.
  assert (HV : 0 < IZR (Zpos M) * pow2 E)
    by (apply Rmult_lt_0_compat; [apply IZR_lt; lia | exact HE]).
  assert (Hu : 0 <= u * (IZR (Zpos M) * pow2 E))
    by (apply Rmult_le_pos; [apply Rlt_le, pow2_pos | lra]).
  assert (Heta : 0 < eta) by apply pow2_pos.
  rewrite fexp_eq in Hb.
  destruct (E <? Z.max (dg + E - 53) (-1074))%Z eqn:Hlt.
  - apply Z.ltb_lt in Hlt.
    set (e1 := Z.max (dg + E - 53) (-1074)) in *.
    assert (Hh : 2 * IZR (Z.abs (m' * 2 ^ (e' - E) - Zpos M)) * pow2 E <= pow2 e1).
    { replace (pow2 e1) with (pow2 ((e1 - E) + E)) by (f_equal; lia).
      rewrite pow2_add.
      rewrite <- (pow2_IZR (e1 - E)) by lia.
      apply Rmult_le_compat_r; [lra|].
      rewrite <- mult_IZR. apply IZR_le.
      rewrite Z.abs_mul in Hb. exact Hb. }
    assert (He1 : pow2 e1 <= 2 * (u * (IZR (Zpos M) * pow2 E)) + 2 * eta).
    { unfold e1. destruct (Z.max_spec (dg + E - 53) (-1074)) as [[_ ->]|[_ ->]].
      - unfold eta. replace (-1074)%Z with (1 + -1075)%Z by lia.
        rewrite pow2_add, pow2_1. lra.
      - unfold u. replace (dg + E - 53)%Z with (1 + (-53 + ((dg - 1) + E)))%Z by lia.
        rewrite !pow2_add. rewrite <- (pow2_IZR (dg - 1)) by (unfold dg; lia).
        apply IZR_le in Hlo. pose proof (pow2_pos (-53)).
        rewrite pow2_1.
        assert (0 <= IZR (2 ^ (dg - 1)) * pow2 E <= IZR (Zpos M) * pow2 E).
        { split; [|nra].
          assert (0 < IZR (2 ^ (dg - 1)))
            by (apply IZR_lt, Z.pow_pos_nonneg; unfold dg; lia). nra. }
        nra. }
    lra.
  - assert (Hz : Z.abs (m' * 2 ^ (e' - E) - Zpos M) = 0%Z) by lia.
    rewrite Hz. lra.
Qed.

End RoundingError.

Module FloatArith.

Import Rounding RoundingError.
Local Open Scope R_scope.

Lemma iter_xO m d : Zpos (Pos.iter xO m d) = (Zpos m * 2 ^ Zpos d)%Z.
Proof.
  induction d as [|d IH] using Pos.peano_ind.
  - simpl. lia.
  - rewrite Pos.iter_succ, Pos2Z.inj_succ, Z.pow_succ_r by lia.
    rewrite Pos2Z.inj_xO, IH. ring.
Qed.

(** Aligning a mantissa to a smaller exponent keeps the value. *)
Lemma shl_align_value m e e' :
  IZR (Zpos (fst (shl_align m e e'))) * pow2 (snd (shl_align m e e'))
  = IZR (Zpos m) * pow2 e.
Proof.
  unfold shl_align. destruct (e' - e)%Z as [|d|d] eqn:Hd; cbn [fst snd]; try reflexivity.
  rewrite iter_xO, mult_IZR, pow2_IZR by lia.
  replace e with (Zpos d + e')%Z by lia. rewrite pow2_add. ring.
Qed.

Lemma shl_align_snd m e e' : (e' <= e)%Z -> snd (shl_align m e e') = e'.
Proof.
  intros H. unfold shl_align. destruct (e' - e)%Z eqn:Hd; cbn [snd]; lia.
Qed.

Lemma binary_round_error s m e :
  IZR (Zpos m) * pow2 e <= pow2 900 ->
  let res := binary_round prec emax s m e in
  fin s res
  /\ Rabs (mag res - IZR (Zpos m) * pow2 e) <= u * (IZR (Zpos m) * pow2 e) + eta.
Proof.
  intros Hv. unfold binary_round.
  pose proof (shl_align_value m e (fexp prec emax (Zpos (digits2_pos m) + e))) as Ha.
  destruct (shl_align m e (fexp prec emax (Zpos (digits2_pos m) + e))) as [mz ez].
  cbn [fst snd] in Ha. rewrite <- Ha in *.
  apply binary_round_aux_error. exact Hv.
Qed.

(** A product with a positive finite constant. *)
Lemma SFmul_error s x mc ec :
  fin s x ->
  mag x * (IZR (Zpos mc) * pow2 ec) <= pow2 900 ->
  let r := SF64mul x (S754_finite false mc ec) in
  fin s r
  /\ Rabs (mag r - mag x * (IZR (Zpos mc) * pow2 ec))
     <= u * (mag x * (IZR (Zpos mc) * pow2 ec)) + eta.
Proof.
  intros Hf Hv. destruct x as [sx| | |sx mx ex]; try contradiction;
    cbn [fin] in Hf; subst sx; cbn [SF64mul SFmul mag] in *.
  - split; [destruct s; reflexivity|].
    rewrite Rmult_0_l, Rminus_0_r, Rabs_R0, Rmult_0_r.
    pose proof (pow2_pos (-1075)). unfold eta. lra.
  - replace (IZR (Zpos mx) * pow2 ex * (IZR (Zpos mc) * pow2 ec))
      with (IZR (Zpos (mx * mc)) * pow2 (ex + ec)) in *
      by (rewrite Pos2Z.inj_mul, mult_IZR, pow2_add; ring).
    replace (xorb s false) with s by (destruct s; reflexivity).
    apply binary_round_aux_error. exact Hv.
Qed.

(** A difference of two numbers of the same sign. *)
Lemma SFsub_error s x y :
  fin s x -> fin s y ->
  Rabs (mag x - mag y) <= pow2 900 ->
  let z := SF64sub x y in
  (exists s', fin s' z)
  /\ mag z <= Rabs (mag x - mag y) + u * Rabs (mag x - mag y) + eta.
Proof.
  intros Hx Hy Hv.
  assert (Hu : 0 < u) by apply pow2_pos.
  assert (He : 0 < eta) by apply pow2_pos.
  pose proof (Rabs_pos (mag x - mag y)) as Hp.
  assert (Hup : 0 <= u * Rabs (mag x - mag y)) by (apply Rmult_le_pos; lra).
  destruct x as [sx| | |sx mx ex]; try contradiction;
    destruct y as [sy| | |sy my ey]; try contradiction;
    cbn [fin] in Hx, Hy; subst sx sy.
  - split.
    + exists (if s then false else false). destruct s; reflexivity.
    + cbn [SF64sub SFsub]. destruct s; cbn [mag] in *; lra.
  - cbn [SF64sub SFsub]. split; [exists (negb s); reflexivity|].
    cbn [mag] in *.
    assert (HD : Rabs (0 - IZR (Zpos my) * pow2 ey) = IZR (Zpos my) * pow2 ey).
    { rewrite Rminus_0_l, Rabs_Ropp.
      apply Rabs_pos_eq, (mag_nonneg (S754_finite s my ey)). }
    rewrite HD in *. lra.
  - cbn [SF64sub SFsub]. split; [exists s; reflexivity|].
    cbn [mag] in *.
    assert (HD : Rabs (IZR (Zpos mx) * pow2 ex - 0) = IZR (Zpos mx) * pow2 ex).
    { rewrite Rminus_0_r.
      apply Rabs_pos_eq, (mag_nonneg (S754_finite s mx ex)). }
    rewrite HD in *. lra.
  - cbn [SF64sub SFsub mag] in *.
    set (ez := Z.min ex ey).
    pose proof (shl_align_value mx ex ez) as Hax.
    pose proof (shl_align_value my ey ez) as Hay.
    rewrite shl_align_snd in Hax, Hay by (unfold ez; lia).
    set (A := Zpos (fst (shl_align mx ex ez))) in *.
    set (B := Zpos (fst (shl_align my ey ez))) in *.
    rewrite <- Hax, <- Hay in *.
    replace (IZR A * pow2 ez - IZR B * pow2 ez) with (IZR (A - B) * pow2 ez) in *
      by (rewrite minus_IZR; ring).
    pose proof (pow2_pos ez) as Hez.
    rewrite Rabs_mult, (Rabs_pos_eq (pow2 ez)), <- abs_IZR in * by lra.
    assert (Hd : (cond_Zopp s A - cond_Zopp s B = A - B
                  \/ cond_Zopp s A - cond_Zopp s B = - (A - B))%Z)
      by (destruct s; cbn [cond_Zopp]; lia).
    assert (Habs : Z.abs (cond_Zopp s A - cond_Zopp s B) = Z.abs (A - B))
      by (destruct Hd as [-> | ->]; [reflexivity | apply Z.abs_opp]).
    rewrite <- Habs in *.
    destruct (cond_Zopp s A - cond_Zopp s B)%Z as [|m|m]; cbn [binary_normalize].
    + split; [exists false; reflexivity|]. cbn [mag]. lra.
    + cbn [Z.abs] in *.
      destruct (binary_round_error false m ez Hv) as (Hfin & Herr).
      split; [exists false; exact Hfin|].
      apply Rabs_bound in Herr.
      assert (0 <= u * (IZR (Zpos m) * pow2 ez)) by lra. lra.
    + cbn [Z.abs] in *.
      destruct (binary_round_error true m ez Hv) as (Hfin & Herr).
      split; [exists true; exact Hfin|].
      apply Rabs_bound in Herr. lra.
Qed.

End FloatArith.

Module FloatCompare.

Import Rounding RoundingError FloatArith.
Local Open Scope R_scope.

Lemma pow2_neg n : (0 <= n)%Z -> pow2 (- n) = / IZR (2 ^ n).
Proof.
  intros Hn. assert (Hp : 0 < IZR (2 ^ n)) by (apply IZR_lt, Z.pow_pos_nonneg; lia).
  apply Rmult_eq_reg_r with (IZR (2 ^ n)); [|lra].
  rewrite Rinv_l by lra. rewrite pow2_IZR by exact Hn.
  rewrite <- pow2_add. replace (- n + n)%Z with 0%Z by lia. reflexivity.
Qed.

Lemma valid_finite s m e :
  valid_binary (S754_finite s m e) = true ->
  (Zpos m < 2 ^ 53)%Z /\ (-1074 <= e)%Z /\ (-1074 < e -> 2 ^ 52 <= Zpos m)%Z.
Proof.
  intros H. unfold SpecFloat.valid_binary, SpecFloat.bounded,
    SpecFloat.canonical_mantissa in H. rewrite fexp_eq in H. apply andb_true_iff in H. destruct H as [H _]. apply Z.eqb_eq in H.
  pose proof (digits2_bounds m) as [Hlo Hhi].
  split; [|split].
  - apply Z.lt_le_trans with (1 := Hhi). apply Z.pow_le_mono_r; lia.
  - lia.
  - intros He. replace (Zpos (digits2_pos m)) with 53%Z in Hlo by lia. exact Hlo.
Qed.

(** What [abs x <= 2^20] says of [x]. *)
Lemma mag_of_leb x :
  valid_binary x = true ->
  SFleb (SFabs x) (S754_finite false 4503599627370496 (-32)) = true ->
  exists s, fin s x /\ mag x <= 1048576.
Proof.
  intros Hv Hle. unfold SFleb in Hle.
  destruct x as [s| s | |s m e]; cbn [SFabs SFcompare] in Hle; try discriminate.
  - exists s. split; [reflexivity | cbn [mag]; lra].
  - exists s. split; [reflexivity|]. cbn [mag].
    destruct (valid_finite _ _ _ Hv) as (Hm & He & _).
    assert (Hm' : IZR (Zpos m) <= 9007199254740992)
      by (apply IZR_le; change (2 ^ 53)%Z with 9007199254740992%Z in Hm; lia).
    assert (0 < IZR (Zpos m)) by (apply IZR_lt; lia).
    destruct (Z.compare_spec e (-32)) as [-> | Hlt | Hgt].
    + rewrite Pos.compare_cont_spec in Hle. cbn [Pos.switch_Eq] in Hle.
      assert ((Zpos m <= 4503599627370496)%Z).
      { apply Pos2Z.pos_le_pos. apply Pos.compare_le_iff. intros Hc.
        rewrite Hc in Hle. discriminate Hle. }
      apply IZR_le in H0.
      replace (-32)%Z with (- (32))%Z by lia. rewrite pow2_neg by lia.
      change (2 ^ 32)%Z with 4294967296%Z. lra.
    + assert (Hp : pow2 e <= pow2 (-33)) by (apply pow2_le; lia).
      replace (-33)%Z with (- (33))%Z in Hp by lia. rewrite pow2_neg in Hp by lia.
      change (2 ^ 33)%Z with 8589934592%Z in Hp.
      pose proof (pow2_pos e). nra.
    + discriminate.
Qed.

(** A valid non-negative number below a positive finite one compares as
    smaller. *)
Lemma leb_of_mag z mt et :
  valid_binary z = true -> fin false z ->
  (Zpos mt < 2 ^ 53)%Z -> (-1074 <= et)%Z ->
  mag z < IZR (Zpos mt) * pow2 et ->
  SFleb z (S754_finite false mt et) = true.
Proof.
  intros Hv Hf Hmt Het Hlt. destruct z as [s| | |s m e]; try contradiction;
    cbn [fin] in Hf; subst s; [reflexivity|].
  unfold SFleb. cbn [SFcompare mag] in *.
  destruct (valid_finite _ _ _ Hv) as (Hm & He & Hn).
  pose proof (pow2_pos et) as Hpe.
  destruct (Z.compare_spec e et) as [-> | Hl | Hg]; [|reflexivity|].
  - rewrite Pos.compare_cont_spec. cbn [Pos.switch_Eq].
    destruct (Pos.compare_spec m mt) as [-> | Hl | Hg]; try reflexivity.
    assert (IZR (Zpos mt) < IZR (Zpos m)) by (apply IZR_lt; lia). nra.
  - exfalso.
    assert (Hp : pow2 (et + 1) <= pow2 e) by (apply pow2_le; lia).
    rewrite pow2_add, pow2_1 in Hp.
    assert (H52 : 4503599627370496 <= IZR (Zpos m)).
    { apply IZR_le. change 4503599627370496%Z with (2 ^ 52)%Z. apply Hn. lia. }
    assert (H53 : IZR (Zpos mt) < 9007199254740992).
    { apply IZR_lt. change (2 ^ 53)%Z with 9007199254740992%Z in Hmt. exact Hmt. }
    nra.
Qed.

Lemma SFabs_fin s z : fin s z -> fin false (SFabs z) /\ mag (SFabs z) = mag z.
Proof. destruct z; simpl; intros H; try contradiction; auto. Qed.

End FloatCompare.

Module RoundTrip.

Import Rounding RoundingError FloatArith FloatCompare.
Local Open Scope R_scope.

Lemma numerals :
  u = / 9007199254740992
  /\ 0 < eta <= / 1267650600228229401496703205376
  /\ pow2 (-58) = / 288230376151711744
  /\ pow2 (-47) = / 140737488355328
  /\ pow2 (-82) = / 4835703278458516698824704
  /\ 1073741824 <= pow2 900.
Proof.
  repeat split.
  - unfold u. exact (pow2_neg 53 ltac:(lia)).
  - apply pow2_pos.
  - unfold eta. apply Rle_trans with (pow2 (-100)); [apply pow2_le; lia|].
    replace (pow2 (-100)) with (/ IZR (2 ^ 100))
      by (symmetry; exact (pow2_neg 100 ltac:(lia))).
    apply Rle_refl.
  - exact (pow2_neg 58 ltac:(lia)).
  - exact (pow2_neg 47 ltac:(lia)).
  - exact (pow2_neg 82 ltac:(lia)).
  - apply Rle_trans with (pow2 30); [|apply pow2_le; lia].
    rewrite <- (pow2_IZR 30) by lia. apply Rle_refl.
Qed.

(** Degrees to radians and back, for an angle of magnitude at most 2^20:
    the difference that binary64 computes is at most 1e-9. *)
Lemma degrees_radians_within (d : float) :
  (abs d <=? 1048576)%float = true ->
  (abs (Py.degrees (Py.radians d) - d) <=? Py.tolerance)%float = true.
Proof.
  intros H.
  rewrite leb_spec, abs_spec in H.
  replace (Prim2SF 1048576) with (S754_finite false 4503599627370496 (-32)) in H
    by reflexivity.
  destruct (mag_of_leb _ (Prim2SF_valid d) H) as (s & Hfin & HD).
  pose proof (Prim2SF_valid (abs (Py.degrees (Py.radians d) - d))) as Hvz.
  rewrite leb_spec.
  rewrite abs_spec, sub_spec in *. unfold Py.degrees, Py.radians in *.
  rewrite !mul_spec in *.
  replace (Prim2SF Py.degToRad) with (S754_finite false 5030569068109113 (-58)) in *
    by reflexivity.
  replace (Prim2SF Py.radToDeg) with (S754_finite false 8063664102031864 (-47)) in *
    by reflexivity.
  replace (Prim2SF Py.tolerance) with (S754_finite false 4835703278458517 (-82))
    by reflexivity.
  set (x := Prim2SF d) in *.
  pose proof (mag_nonneg x) as HD0.
  destruct numerals as (Hu & (Heta0 & Heta) & H58 & H47 & H82 & H900).
  set (r := SF64mul x (S754_finite false 5030569068109113 (-58))) in *.
  assert (H1 : mag x * (IZR (Zpos 5030569068109113) * pow2 (-58)) <= pow2 900)
    by (rewrite H58; lra).
  destruct (SFmul_error s x _ _ Hfin H1) as (Hf1 & He1). fold r in Hf1, He1.
  rewrite Hu, H58 in He1. apply Rabs_bound in He1.
  pose proof (mag_nonneg r) as HR0.
  set (bk := SF64mul r (S754_finite false 8063664102031864 (-47))) in *.
  assert (H2 : mag r * (IZR (Zpos 8063664102031864) * pow2 (-47)) <= pow2 900)
    by (rewrite H47; lra).
  destruct (SFmul_error s r _ _ Hf1 H2) as (Hf2 & He2). fold bk in Hf2, He2.
  rewrite Hu, H47 in He2. apply Rabs_bound in He2.
  assert (Hdiff : Rabs (mag bk - mag x) <= / 2000000000).
  { apply Rabs_le. lra. }
  assert (H3 : Rabs (mag bk - mag x) <= pow2 900) by lra.
  destruct (SFsub_error s bk x Hf2 Hfin H3) as ((s' & Hf3) & He3).
  destruct (SFabs_fin s' _ Hf3) as (Hf4 & Hm4).
  apply leb_of_mag; [exact Hvz | exact Hf4 | reflexivity | lia |].
  rewrite Hm4, H82. rewrite Hu in He3. lra.
Qed.

End RoundTrip.

(* ------------------------------------------------------------------ *)
(** ** Writing and reading back *)

Module PayloadRoundTrip.

(** Reading the payload made of [data]. *)
Lemma read_payload :
  forall (E : Type) (exc_str : E -> string)
         (float_of_str : string -> option float)
         (tapir_fn : Gateway.tapir E) (data : Models.GeorefData),
    tapir_fn "GetGeoLocation" None = Ok (GeorefWriter.build_payload data) ->
    GeorefReader.read_geolocation E exc_str float_of_str tapir_fn
    = Ok {| Models.project_location :=
              {| Models.longitude := Models.longitude (Models.project_location data);
                 Models.latitude := Models.latitude (Models.project_location data);
                 Models.altitude := Models.altitude (Models.project_location data);
                 Models.north_deg :=
                   Py.degrees (Py.radians
                                 (Models.north_deg (Models.project_location data))) |};
            Models.survey_point := Models.survey_point data;
            Models.geo_ref_params := Models.geo_ref_params data |}.
Proof.
  intros E exc_str float_of_str tapir_fn data Ht.
  unfold GeorefReader.read_geolocation. rewrite Ht.
  destruct data as [[lon lat alt north] [e n el] [cn ds gd vd mp mz]].
  reflexivity.
Qed.

End PayloadRoundTrip.

(** What is read from a gateway that answers [GetGeoLocation] with the
    payload [build_payload] made of [data]: every field of [data] as it was,
    the CRS values whatever they hold, except [north_deg], which went to
    radians and back. *)
Theorem read_back_payload :
  forall (E : Type) (exc_str : E -> string)
         (float_of_str : string -> option float)
         (tapir_fn : Gateway.tapir E) (data : Models.GeorefData),
    tapir_fn "GetGeoLocation" None = Ok (GeorefWriter.build_payload data) ->
    GeorefReader.read_geolocation E exc_str float_of_str tapir_fn
    = Ok {| Models.project_location :=
              {| Models.longitude := Models.longitude (Models.project_location data);
                 Models.latitude := Models.latitude (Models.project_location data);
                 Models.altitude := Models.altitude (Models.project_location data);
                 Models.north_deg :=
                   Py.degrees (Py.radians
                                 (Models.north_deg (Models.project_location data))) |};
            Models.survey_point := Models.survey_point data;
            Models.geo_ref_params := Models.geo_ref_params data |}.
Proof.
  exact PayloadRoundTrip.read_payload.
Qed.

Lemma read_back_payload_witness :
  GeorefReader.read_geolocation unit (fun _ => "") (fun _ => None)
    (fun _ _ => Ok (GeorefWriter.build_payload Models.default_georef_data))
  = Ok Models.default_georef_data.
Proof.
  rewrite (read_back_payload unit (fun _ => "") (fun _ => None)
             (fun _ _ => Ok (GeorefWriter.build_payload Models.default_georef_data))
             Models.default_georef_data eq_refl).
  reflexivity.
Defined.

(** The north direction read back from a payload is within 1e-9 of the one
    written, by the test [abs(back - d) <= 1e-9] computed in binary64, for
    every direction [d] of magnitude at most 2^20 = 1048576 degrees. *)
Theorem north_round_trip_within :
  forall (E : Type) (exc_str : E -> string)
         (float_of_str : string -> option float)
         (tapir_fn : Gateway.tapir E) (data : Models.GeorefData),
    let d := Models.north_deg (Models.project_location data) in
    tapir_fn "GetGeoLocation" None = Ok (GeorefWriter.build_payload data) ->
    (abs d <=? 1048576)%float = true ->
    exists back,
      GeorefReader.read_geolocation E exc_str float_of_str tapir_fn = Ok back
      /\ (abs (Models.north_deg (Models.project_location back) - d)
          <=? Py.tolerance)%float = true.
Proof.
  intros E exc_str float_of_str tapir_fn data d Ht Hd.
  eexists. split; [apply PayloadRoundTrip.read_payload; exact Ht|].
  cbn [Models.project_location Models.north_deg].
  apply RoundTrip.degrees_radians_within. exact Hd.
Qed.

Lemma north_round_trip_within_witness :
  let data := {| Models.project_location :=
                   {| Models.longitude := 24.5; Models.latitude := 60.25;
                      Models.altitude := 12; Models.north_deg := 123.5 |};
                 Models.survey_point := Models.default_survey_point;
                 Models.geo_ref_params := Models.default_geo_ref_params |} in
  exists back,
    GeorefReader.read_geolocation unit (fun _ => "") (fun _ => None)
      (fun _ _ => Ok (GeorefWriter.build_payload data)) = Ok back
    /\ (abs (Models.north_deg (Models.project_location back) - 123.5)
        <=? Py.tolerance)%float = true.
Proof.
  intros data.
  apply (north_round_trip_within unit (fun _ => "") (fun _ => None)
           (fun _ _ => Ok (GeorefWriter.build_payload data)) data eq_refl).
  reflexivity.
Defined.

(** The bound on the magnitude is needed: the same test fails for some
    directions a form accepts, 1e10 degrees among them, and the largest
    finite float does not even come back as itself. *)
Theorem north_round_trip_not_for_all :
  ~ (forall d : float,
       (abs (Py.degrees (Py.radians d) - d) <=? Py.tolerance)%float = true).
Proof.
  intros H. specialize (H 10000000000%float). vm_compute in H. discriminate H.
Qed.

(* ------------------------------------------------------------------ *)
(** ** More on the resolver *)

Module ResolverExtras.

Import CrsMetadata ResolverFacts ResolverFacts2.

(** The local step never gives a vertical datum. *)
Lemma from_pyproj_no_vertical db code : vertical_datum (_from_pyproj db code) = "".
Proof.
  destruct (db code) as [|crs] eqn:Hdb.
  - unfold _from_pyproj. rewrite Hdb. reflexivity.
  - rewrite (from_pyproj_found _ _ _ Hdb).
    destruct (operation_block_keeps crs
                (snd (datum_block crs
                 {| crs_name := Text.or_else (name crs) "";
                    description :=
                      Text.or_else
                        (Text.or_else (Text.strip (str_or_empty (remarks crs)))
                                      (name crs)) "";
                    geodetic_datum := ""; vertical_datum := "";
                    map_projection := ""; map_zone := "" |})))
      as (_ & _ & _ & ->).
    destruct (datum_block_keeps crs
                 {| crs_name := Text.or_else (name crs) "";
                    description :=
                      Text.or_else
                        (Text.or_else (Text.strip (str_or_empty (remarks crs)))
                                      (name crs)) "";
                    geodetic_datum := ""; vertical_datum := "";
                    map_projection := ""; map_zone := "" |})
      as (_ & _ & -> & _).
    reflexivity.
Qed.

(** What [from_epsg] returns is the object after both steps. *)
Lemma from_epsg_ok db net code m :
  from_epsg db net code = Ok m ->
  m = _fill_from_epsg_io net code (_from_pyproj db code) /\ crs_name m <> "".
Proof.
  rewrite from_epsg_after. cbv zeta.
  destruct (Text.truthy (crs_name (_fill_from_epsg_io net code (_from_pyproj db code))))
    eqn:Ht; [|discriminate].
  intros H. injection H as <-. split; [reflexivity|].
  apply truthy_nonempty. exact Ht.
Qed.

End ResolverExtras.

(** A resolution that succeeds has a name and a description. *)
Theorem resolved_has_name_and_description :
  forall (CRS_from_epsg : Z -> outcome CrsMetadata.CRS)
         (requests_get : string -> outcome CrsMetadata.Response)
         (code : Z) (meta : CrsMetadata.CRSMetadata),
    CrsMetadata.from_epsg CRS_from_epsg requests_get code = Ok meta ->
    CrsMetadata.crs_name meta <> "" /\ CrsMetadata.description meta <> "".
Proof.
  intros db net code meta H.
  destruct (ResolverExtras.from_epsg_ok _ _ _ _ H) as (Hm & Hn).
  split; [exact Hn|].
  rewrite Hm in Hn |- *. rewrite ResolverFacts.fill_cases in Hn |- *.
  pose proof (ResolverFacts2.from_pyproj_described db code) as Hd.
  destruct (ResolverFacts.answer net code) as [n|]; [|auto].
  cbn [ResolverFacts.filled CrsMetadata.crs_name CrsMetadata.description] in Hn |- *.
  destruct (Text.truthy (CrsMetadata.description (CrsMetadata._from_pyproj db code)))
    eqn:Ht; [apply ResolverFacts.truthy_nonempty; exact Ht|].
  destruct (Text.truthy (CrsMetadata.crs_name (CrsMetadata._from_pyproj db code)))
    eqn:Hc; [|exact Hn].
  apply ResolverFacts.truthy_nonempty in Hc. apply Hd in Hc.
  apply ResolverFacts.truthy_empty in Ht. contradiction.
Qed.

Lemma resolved_has_name_and_description_witness :
  let db := fun _ : Z => @Raises CrsMetadata.CRS in
  let r := {| CrsMetadata.result_name := Some "WGS 84 / UTM zone 33N" |} in
  let resp := {| CrsMetadata.status_code := 200;
                 CrsMetadata.json :=
                   Returns {| CrsMetadata.results := Some [r] |} |} in
  let meta := {| CrsMetadata.crs_name := "WGS 84 / UTM zone 33N";
                 CrsMetadata.description := "WGS 84 / UTM zone 33N";
                 CrsMetadata.geodetic_datum := "";
                 CrsMetadata.vertical_datum := "";
                 CrsMetadata.map_projection := "";
                 CrsMetadata.map_zone := "33N" |} in
  CrsMetadata.crs_name meta <> "" /\ CrsMetadata.description meta <> "".
Proof.
  intros db r resp meta.
  apply (resolved_has_name_and_description db (fun _ => Returns resp) 32633 meta).
  reflexivity.
Defined.

(** The datum, the vertical datum and the projection of a resolution come
    from the local step alone: the network step supplies none of them, and
    the vertical datum is empty in every result. *)
Theorem resolved_datum_fields_are_local :
  forall (CRS_from_epsg : Z -> outcome CrsMetadata.CRS)
         (requests_get : string -> outcome CrsMetadata.Response)
         (code : Z) (meta : CrsMetadata.CRSMetadata),
    CrsMetadata.from_epsg CRS_from_epsg requests_get code = Ok meta ->
    let local := CrsMetadata._from_pyproj CRS_from_epsg code in
    CrsMetadata.geodetic_datum meta = CrsMetadata.geodetic_datum local
    /\ CrsMetadata.map_projection meta = CrsMetadata.map_projection local
    /\ CrsMetadata.vertical_datum meta = "".
Proof.
  intros db net code meta H local.
  destruct (ResolverExtras.from_epsg_ok _ _ _ _ H) as (-> & _).
  rewrite ResolverFacts.fill_cases. fold local.
  pose proof (ResolverExtras.from_pyproj_no_vertical db code) as Hv. fold local in Hv.
  destruct (ResolverFacts.answer net code); simpl; auto.
Qed.

Lemma resolved_datum_fields_are_local_witness :
  let db := fun _ : Z => @Raises CrsMetadata.CRS in
  let r := {| CrsMetadata.result_name := Some "ETRS89 / TM35FIN(E,N)" |} in
  let resp := {| CrsMetadata.status_code := 200;
                 CrsMetadata.json :=
                   Returns {| CrsMetadata.results := Some [r] |} |} in
  let meta := {| CrsMetadata.crs_name := "ETRS89 / TM35FIN(E,N)";
                 CrsMetadata.description := "ETRS89 / TM35FIN(E,N)";
                 CrsMetadata.geodetic_datum := "";
                 CrsMetadata.vertical_datum := "";
                 CrsMetadata.map_projection := "";
                 CrsMetadata.map_zone := "35" |} in
  CrsMetadata.geodetic_datum meta
  = CrsMetadata.geodetic_datum (CrsMetadata._from_pyproj db 3067)
  /\ CrsMetadata.map_projection meta
     = CrsMetadata.map_projection (CrsMetadata._from_pyproj db 3067)
  /\ CrsMetadata.vertical_datum meta = "".
Proof.
  intros db r resp meta.
  apply (resolved_datum_fields_are_local db (fun _ => Returns resp) 3067 meta).
  reflexivity.
Defined.

(** When the local step gives both a name and a zone, the network source
    is not used: whatever it would answer, the result is the local one. *)
Theorem network_skipped_when_local_complete :
  forall (CRS_from_epsg : Z -> outcome CrsMetadata.CRS)
         (requests_get : string -> outcome CrsMetadata.Response) (code : Z),
    let local := CrsMetadata._from_pyproj CRS_from_epsg code in
    CrsMetadata.crs_name local <> "" ->
    CrsMetadata.map_zone local <> "" ->
    CrsMetadata.from_epsg CRS_from_epsg requests_get code = Ok local.
Proof.
  intros db net code local Hn Hz. unfold CrsMetadata.from_epsg. fold local.
  apply ResolverFacts.truthy_nonempty in Hn, Hz. rewrite Hn, Hz. simpl.
  rewrite Hn. reflexivity.
Qed.

Lemma network_skipped_when_local_complete_witness :
  let op := {| CrsMetadata.method_name := Returns (Some "Transverse Mercator");
               CrsMetadata.operation_name := Returns (Some "UTM zone 33N") |} in
  let crs := {| CrsMetadata.name := "WGS 84 / UTM zone 33N";
                CrsMetadata.remarks := None;
                CrsMetadata.geodetic_crs := Returns None;
                CrsMetadata.datum := Returns None;
                CrsMetadata.coordinate_operation := Returns (Some op) |} in
  let db := fun _ : Z => Returns crs in
  let r := {| CrsMetadata.result_name := Some "something else zone 7" |} in
  let resp := {| CrsMetadata.status_code := 200;
                 CrsMetadata.json :=
                   Returns {| CrsMetadata.results := Some [r] |} |} in
  CrsMetadata.from_epsg db (fun _ => Returns resp) 32633
  = Ok (CrsMetadata._from_pyproj db 32633).
Proof.
  intros op crs db r resp.
  apply (network_skipped_when_local_complete db (fun _ => Returns resp) 32633);
    discriminate.
Defined.

(** Running the network step a second time, with the same answer from the
    service, changes nothing. *)
Theorem fill_from_epsg_io_idempotent :
  forall (requests_get : string -> outcome CrsMetadata.Response)
         (code : Z) (meta : CrsMetadata.CRSMetadata),
    let once := CrsMetadata._fill_from_epsg_io requests_get code meta in
    CrsMetadata._fill_from_epsg_io requests_get code once = once.
Proof.
  intros net code meta once. unfold once. rewrite !ResolverFacts.fill_cases.
  destruct (ResolverFacts.answer net code) as [n|]; [|reflexivity].
  unfold ResolverFacts.filled. destruct meta as [cn ds gd vd mp mz].
  cbn [CrsMetadata.crs_name CrsMetadata.description CrsMetadata.geodetic_datum
       CrsMetadata.vertical_datum CrsMetadata.map_projection CrsMetadata.map_zone].
  assert (Hi : forall a b : string,
             (if Text.truthy (if Text.truthy a then a else b)
              then (if Text.truthy a then a else b) else b)
             = (if Text.truthy a then a else b)).
  { intros a b. destruct (Text.truthy a) eqn:Ha; [rewrite Ha; reflexivity|].
    destruct (Text.truthy b); reflexivity. }
  rewrite !Hi. reflexivity.
Qed.

(* ------------------------------------------------------------------ *)
(** ** The shape of a zone *)

Module ZoneShape.

Import Re CrsMetadata.










End ZoneShape.


Module ZoneOfResolution.

Import CrsMetadata ZoneShape.



End ZoneOfResolution.



(* ------------------------------------------------------------------ *)
(** ** The reader on responses of another structure *)

(** A response of a structure the reader does not expect is not reported
    as a [RuntimeError]: a response that is no mapping, or a section that is
    true and no mapping, raises the interpreter's [AttributeError], and a
    value [float()] refuses raises what [float()] raises.  Nothing is
    returned in these cases. *)
Theorem reader_unexpected_structure :
  forall (E : Type) (exc_str : E -> string)
         (float_of_str : string -> option float)
         (tapir_fn : Gateway.tapir E) (response : Py.pyval),
    tapir_fn "GetGeoLocation" None = Ok response ->
    let read := GeorefReader.read_geolocation E exc_str float_of_str tapir_fn in
    ((forall d, response <> Py.PyDict d) ->
     read = Err (Gateway.Uncaught Py.AttributeError))
    /\ (forall d section,
          response = Py.PyDict d ->
          Py.lookup "projectLocation" d = Some section ->
          Py.truthy section = true ->
          (forall blk, section <> Py.PyDict blk) ->
          read = Err (Gateway.Uncaught Py.AttributeError))
    /\ (forall d blk value b,
          response = Py.PyDict d ->
          Py.lookup "projectLocation" d = Some (Py.PyDict blk) ->
          Py.lookup "longitude" blk = Some value ->
          Py.float_of float_of_str value = Err b ->
          read = Err (Gateway.Uncaught b)).
Proof.
  intros E exc_str float_of_str tapir_fn response Ht read.
  unfold read, GeorefReader.read_geolocation. rewrite Ht. repeat split.
  - intros Hnd. destruct response; try reflexivity. exfalso. eapply Hnd. reflexivity.
  - intros d section -> Hl Htr Hnd.
    rewrite ReaderFacts.get_or_none, Hl.
    cbn [GeorefReader.uncaught GeorefReader.bind].
    unfold Py.or_empty_dict. rewrite Htr.
    unfold GeorefReader.read_project_location. rewrite Htr.
    destruct section; try reflexivity. exfalso. eapply Hnd. reflexivity.
  - intros d blk value b -> Hl Hv Hf.
    rewrite ReaderFacts.get_or_none, Hl.
    cbn [GeorefReader.uncaught GeorefReader.bind].
    assert (Hne : blk <> []) by (intros ->; discriminate Hv).
    assert (Ho : Py.or_empty_dict (Py.PyDict blk) = Py.PyDict blk)
      by (destruct blk; [congruence | reflexivity]).
    rewrite Ho. unfold GeorefReader.read_project_location.
    replace (Py.truthy (Py.PyDict blk)) with true
      by (destruct blk; [congruence | reflexivity]).
    unfold GeorefReader.get_float at 1. cbn [Py.get]. rewrite Hv, Hf. reflexivity.
Qed.

Lemma reader_unexpected_structure_witness :
  GeorefReader.read_geolocation unit (fun _ => "") (fun _ => None)
    (fun _ _ => Ok (Py.PyList []))
  = Err (Gateway.Uncaught Py.AttributeError).
Proof.
  apply (proj1 (reader_unexpected_structure unit (fun _ => "") (fun _ => None)
                  (fun _ _ => Ok (Py.PyList [])) (Py.PyList []) eq_refl)).
  discriminate.
Defined.

(** A section that is there but false in a condition (null, an empty
    mapping, 0, an empty string) is read like a missing one: with both
    sections so, the result is [GeorefData()]. *)
Theorem reader_null_section_as_missing :
  forall (E : Type) (exc_str : E -> string)
         (float_of_str : string -> option float)
         (tapir_fn : Gateway.tapir E) (d : list (string * Py.pyval)),
    tapir_fn "GetGeoLocation" None = Ok (Py.PyDict d) ->
    let absent (v : option Py.pyval) :=
      match v with None => True | Some x => Py.truthy x = false end in
    let read := GeorefReader.read_geolocation E exc_str float_of_str tapir_fn in
    (absent (Py.lookup "projectLocation" d) ->
     absent (Py.lookup "surveyPoint" d) ->
     read = Ok Models.default_georef_data)
    /\ (absent (Py.lookup "surveyPoint" d) ->
        forall data, read = Ok data ->
          Models.survey_point data = Models.default_survey_point
          /\ Models.geo_ref_params data = Models.default_geo_ref_params).
Proof.
  intros E exc_str float_of_str tapir_fn d Ht absent read.
  assert (Hf : forall v, absent v ->
                 Py.or_empty_dict (match v with Some x => x | None => Py.PyNone end)
                 = Py.PyDict []).
  { intros [x|] Hx; [|reflexivity]. unfold Py.or_empty_dict. simpl in Hx.
    rewrite Hx. reflexivity. }
  unfold read, GeorefReader.read_geolocation. rewrite Ht.
  rewrite !ReaderFacts.get_or_none. cbn [GeorefReader.uncaught GeorefReader.bind].
  split.
  - intros Hp Hs. rewrite (Hf _ Hp), (Hf _ Hs). reflexivity.
  - intros Hs data. rewrite (Hf _ Hs).
    unfold GeorefReader.read_project_location.
    destruct (Py.truthy _); cbn [GeorefReader.bind].
    + destruct (GeorefReader.get_float _ _ "longitude"); cbn; [discriminate|].
      destruct (GeorefReader.get_float _ _ "latitude"); cbn; [discriminate|].
      destruct (GeorefReader.get_float _ _ "altitude"); cbn; [discriminate|].
      destruct (GeorefReader.get_float _ _ "north"); cbn; [discriminate|].
      intros H. injection H as H. subst data. split; reflexivity.
    + cbn. intros H. injection H as H. subst data. split; reflexivity.
Qed.

Lemma reader_null_section_as_missing_witness :
  GeorefReader.read_geolocation unit (fun _ => "") (fun _ => None)
    (fun _ _ => Ok (Py.PyDict [("projectLocation", Py.PyNone);
                               ("surveyPoint", Py.PyDict [])]))
  = Ok Models.default_georef_data.
Proof.
  apply (proj1 (reader_null_section_as_missing unit (fun _ => "") (fun _ => None)
                  (fun _ _ => Ok (Py.PyDict [("projectLocation", Py.PyNone);
                                             ("surveyPoint", Py.PyDict [])]))
                  _ eq_refl)); reflexivity.
Defined.

(* ------------------------------------------------------------------ *)
(** ** Failures of the transformer *)

(** [survey_to_wgs84] has no fallback: it returns the pair the always-xy
    transformer for the source code and 4326 gives, or raises what pyproj
    raised, when building the transformer or when transforming.  Unpacking
    the result never fails. *)
Theorem survey_to_wgs84_outcomes :
  forall (E : Type)
         (Transformer_from_crs :
            string -> string -> bool -> result E (CoordTransformer.Transformer E))
         (eastings northings : float) (src : Z),
    let built :=
      Transformer_from_crs ("EPSG:" ++ Text.str_of_int src) "EPSG:4326" true in
    match CoordTransformer.survey_to_wgs84 E Transformer_from_crs eastings northings src with
    | Ok (lon, lat) =>
        exists t, built = Ok t
                  /\ CoordTransformer.transform2 t eastings northings = Ok (lon, lat)
    | Err (CoordTransformer.Library e) =>
        built = Err e
        \/ exists t, built = Ok t
                     /\ CoordTransformer.transform2 t eastings northings = Err e
    | Err CoordTransformer.UnpackError => False
    end.
Proof.
  intros E lib x y src built.
  unfold CoordTransformer.survey_to_wgs84, CoordTransformer.__init__.
  change (Text.str_of_int 4326) with "4326". simpl append at 2. fold built.
  destruct built as [e|t]; [left; reflexivity|].
  unfold CoordTransformer.transform. cbn [CoordTransformer._t].
  destruct (CoordTransformer.transform2 t x y) as [e|[lon lat]] eqn:Ht.
  - right. exists t. split; [reflexivity | exact Ht].
  - exists t. split; [reflexivity | exact Ht].
Qed.

(* ------------------------------------------------------------------ *)
(** ** The connection *)

Module ConnectionFacts.

Section Facts.

Variable E : Type.
Variable Id : Type.

(** The object [connect] leaves when the package gave the connection
    [ac]. *)
Definition connected (ac : Connection.ACConnection E Id)
  : Connection.ArchicadConnection E Id :=
  {| Connection.conn := Some ac;
     Connection.cmd := Some (Connection.commands ac);
     Connection.self_types := Some (Connection.types ac) |}.

(** A Tapir command sent over [ac]. *)
Definition send (ac : Connection.ACConnection E Id) (command : string)
                (parameters : option Py.pyval) : result E Py.pyval :=
  Connection.ExecuteAddOnCommand (Connection.commands ac)
    (Connection.AddOnCommandId (Connection.types ac) "TapirCommand" command)
    parameters.

Lemma tapir_connected ac command parameters :
  Connection.tapir E Id (connected ac) command parameters
  = match send ac command (Connection.given parameters) with
    | Ok v => Ok v
    | Err e => Err (Connection.Raised e)
    end.
Proof. reflexivity. Qed.

End Facts.

End ConnectionFacts.

(** [connect] on a new object.  When the package raises or returns no
    connection, [connect] raises (the package's exception, or
    [ConnectionError]) and the object stays unconnected.  When the version
    command of the Tapir addon raises, [connect] raises a [RuntimeError]
    caused by that exception, and the object already holds the connection,
    its commands and its types.  Otherwise it returns the object, holding
    them. *)
Theorem connect_outcomes :
  forall (E Id : Type)
         (ACConnection_connect : result E (option (Connection.ACConnection E Id))),
    let self := Connection.__init__ E Id in
    let r := Connection.connect E Id ACConnection_connect self in
    (forall e, ACConnection_connect = Err e ->
               r = (Err (Connection.Raised e), self))
    /\ (ACConnection_connect = Ok None ->
        r = (Err (Connection.ConnectionError
                    ("Could not connect to ArchiCAD. "
                     ++ "Make sure ArchiCAD is running and the Python API is enabled.")),
             self))
    /\ (forall ac e,
          ACConnection_connect = Ok (Some ac) ->
          ConnectionFacts.send E Id ac "GetAddOnVersion" None = Err e ->
          r = (Err (Connection.RuntimeError
                      ("Tapir addon is not available. "
                       ++ "Install it from https://github.com/ENZYME-APD/tapir-archicad-automation")
                      (Connection.Raised e)),
               ConnectionFacts.connected E Id ac))
    /\ (forall ac v,
          ACConnection_connect = Ok (Some ac) ->
          ConnectionFacts.send E Id ac "GetAddOnVersion" None = Ok v ->
          r = (Ok tt, ConnectionFacts.connected E Id ac)).
Proof.
  intros E Id lib self r. unfold r, Connection.connect. repeat split.
  - intros e ->. reflexivity.
  - intros ->. reflexivity.
  - intros ac e -> Hs. cbn [Connection.conn Connection.cmd Connection.self_types].
    unfold Connection._check_tapir, Connection.execute.
    cbn [Connection.conn Connection.cmd Connection.self_types].
    unfold ConnectionFacts.send in Hs. rewrite Hs. reflexivity.
  - intros ac v -> Hs. cbn [Connection.conn Connection.cmd Connection.self_types].
    unfold Connection._check_tapir, Connection.execute.
    cbn [Connection.conn Connection.cmd Connection.self_types].
    unfold ConnectionFacts.send in Hs. rewrite Hs. reflexivity.
Qed.

Lemma connect_outcomes_witness :
  Connection.connect unit unit (Ok None) (Connection.__init__ unit unit)
  = (Err (Connection.ConnectionError
            ("Could not connect to ArchiCAD. "
             ++ "Make sure ArchiCAD is running and the Python API is enabled.")),
     Connection.__init__ unit unit).
Proof.
  destruct (connect_outcomes unit unit (Ok None)) as (_ & H & _).
  apply H. reflexivity.
Defined.

(** [tapir] on the object a successful [connect] leaves sends the command
    in the namespace "TapirCommand", with the parameters when they are given
    and not [None] and without parameters otherwise, and hands back what the
    package returns or raises, unwrapped.  On an object that was never
    connected it raises [AttributeError] and sends nothing. *)
Theorem tapir_dispatch :
  forall (E Id : Type)
         (ACConnection_connect : result E (option (Connection.ACConnection E Id)))
         (self' : Connection.ArchicadConnection E Id)
         (command : string) (parameters : option Py.pyval),
    Connection.tapir E Id (Connection.__init__ E Id) command parameters
    = Err Connection.AttributeError
    /\ (Connection.connect E Id ACConnection_connect (Connection.__init__ E Id)
        = (Ok tt, self') ->
        exists ac,
          ACConnection_connect = Ok (Some ac)
          /\ Connection.tapir E Id self' command parameters
             = match ConnectionFacts.send E Id ac command
                       (match parameters with
                        | Some Py.PyNone => None
                        | p => p
                        end) with
               | Ok v => Ok v
               | Err e => Err (Connection.Raised e)
               end).
Proof.
  intros E Id lib self' command parameters. split; [reflexivity|].
  unfold Connection.connect. destruct lib as [e|[ac|]]; try discriminate.
  cbn [Connection.conn Connection.cmd Connection.self_types].
  intros H. injection H as Hc <-. exists ac. split; [reflexivity|].
  apply ConnectionFacts.tapir_connected.
Qed.

Lemma tapir_dispatch_witness :
  let ac := {| Connection.commands :=
                 {| Connection.ExecuteAddOnCommand :=
                      fun (id : string) (p : option Py.pyval) =>
                        @Ok unit _ (Py.PyStr id) |};
               Connection.types :=
                 {| Connection.AddOnCommandId := fun ns name => ns ++ "." ++ name |} |} in
  Connection.tapir unit string (ConnectionFacts.connected unit string ac)
    "GetGeoLocation" (Some Py.PyNone)
  = Ok (Py.PyStr "TapirCommand.GetGeoLocation").
Proof.
  intros ac.
  destruct (proj2 (tapir_dispatch unit string (Ok (Some ac))
                     (ConnectionFacts.connected unit string ac)
                     "GetGeoLocation" (Some Py.PyNone)) eq_refl)
    as (ac' & Heq & Ht).
  injection Heq as <-. rewrite Ht. reflexivity.
Defined.

(** Reading and writing through a connection.  With the bound method
    [tapir] of a connected object as the gateway, [read_geolocation] sends
    "GetGeoLocation" without parameters and [write_geolocation] sends
    "SetGeoLocation" with the payload of the data; an exception of the
    package comes out as the [RuntimeError] that names the command, caused
    by that exception.  Through an object that was never connected both
    raise that [RuntimeError] too, caused by the [AttributeError]. *)
Theorem gateway_through_connection :
  forall (E Id : Type) (exc_str : Connection.error E -> string)
         (float_of_str : string -> option float)
         (ac : Connection.ACConnection E Id) (data : Models.GeorefData),
    let self := ConnectionFacts.connected E Id ac in
    let read self :=
      GeorefReader.read_geolocation (Connection.error E) exc_str float_of_str
        (Connection.tapir E Id self) in
    let write self :=
      GeorefWriter.write_geolocation (Connection.error E) exc_str
        (Connection.tapir E Id self) data in
    (forall e,
       ConnectionFacts.send E Id ac "GetGeoLocation" None = Err e ->
       read self
       = Err (Gateway.RuntimeError
                ("Tapir GetGeoLocation failed: " ++ exc_str (Connection.Raised e))
                (Connection.Raised e)))
    /\ (forall e,
          ConnectionFacts.send E Id ac "SetGeoLocation"
            (Some (GeorefWriter.build_payload data)) = Err e ->
          write self
          = Err (Gateway.RuntimeError
                   ("Tapir SetGeoLocation failed: " ++ exc_str (Connection.Raised e))
                   (Connection.Raised e)))
    /\ (forall v,
          ConnectionFacts.send E Id ac "SetGeoLocation"
            (Some (GeorefWriter.build_payload data)) = Ok v ->
          write self = Ok v)
    /\ read (Connection.__init__ E Id)
       = Err (Gateway.RuntimeError
                ("Tapir GetGeoLocation failed: " ++ exc_str Connection.AttributeError)
                Connection.AttributeError)
    /\ write (Connection.__init__ E Id)
       = Err (Gateway.RuntimeError
                ("Tapir SetGeoLocation failed: " ++ exc_str Connection.AttributeError)
                Connection.AttributeError).
Proof.
  intros E Id exc_str float_of_str ac data self read write.
  unfold read, write, GeorefReader.read_geolocation, GeorefWriter.write_geolocation.
  repeat split.
  - intros e H. unfold self. rewrite ConnectionFacts.tapir_connected.
    cbn [Connection.given]. rewrite H. reflexivity.
  - intros e H. unfold self. rewrite ConnectionFacts.tapir_connected.
    cbn [Connection.given GeorefWriter.build_payload]. 
    cbn [GeorefWriter.build_payload] in H. rewrite H. reflexivity.
  - intros v H. unfold self. rewrite ConnectionFacts.tapir_connected.
    cbn [Connection.given GeorefWriter.build_payload].
    cbn [GeorefWriter.build_payload] in H. rewrite H. reflexivity.
Qed.

Lemma gateway_through_connection_witness :
  let ac := {| Connection.commands :=
                 {| Connection.ExecuteAddOnCommand :=
                      fun (id : string) (p : option Py.pyval) =>
                        @Err string Py.pyval "addon timed out" |};
               Connection.types :=
                 {| Connection.AddOnCommandId := fun ns name => ns ++ "." ++ name |} |} in
  let exc_str := fun e : Connection.error string =>
                   match e with Connection.Raised s => s | _ => "" end in
  GeorefReader.read_geolocation (Connection.error string) exc_str (fun _ => None)
    (Connection.tapir string string (ConnectionFacts.connected string string ac))
  = Err (Gateway.RuntimeError "Tapir GetGeoLocation failed: addon timed out"
           (Connection.Raised "addon timed out")).
Proof.
  intros ac exc_str.
  apply (proj1 (gateway_through_connection string string exc_str (fun _ => None) ac
                  Models.default_georef_data)).
  reflexivity.
Defined.

(* ------------------------------------------------------------------ *)
(** ** The lookup worker *)

(** A run of the lookup worker.  When the code does not resolve it emits
    [failed] with the text of the resolver's error, whatever the transformer
    would do.  When it resolves and a coordinate is missing it emits the
    metadata without longitude and latitude, and the transformer is not
    used.  With both coordinates it emits the metadata with the pair the
    transformer gives; when the transformer raises, it emits [failed] with
    that exception's text and the metadata is not emitted.  A result never
    holds one of longitude and latitude without the other. *)
Theorem lookup_worker_outcomes :
  forall (E : Type) (exc_str : E -> string)
         (CRS_from_epsg : Z -> outcome CrsMetadata.CRS)
         (requests_get : string -> outcome CrsMetadata.Response)
         (Transformer_from_crs :
            string -> string -> bool -> result E (CoordTransformer.Transformer E))
         (epsg : Z) (eastings northings : option float),
    let resolved := CrsMetadata.from_epsg CRS_from_epsg requests_get epsg in
    let emitted :=
      Ui.run E exc_str CRS_from_epsg requests_get Transformer_from_crs
        epsg eastings northings in
    (forall text, resolved = Err (CrsMetadata.ValueError text) ->
                  emitted = Ui.failed_emit text)
    /\ (forall m, resolved = Ok m ->
                  eastings = None \/ northings = None ->
                  emitted = Ui.result_emit
                              {| Ui.meta := m; Ui.lon := None; Ui.lat := None |})
    /\ (forall m e n x y,
          resolved = Ok m -> eastings = Some e -> northings = Some n ->
          CoordTransformer.survey_to_wgs84 E Transformer_from_crs e n epsg = Ok (x, y) ->
          emitted = Ui.result_emit
                      {| Ui.meta := m; Ui.lon := Some x; Ui.lat := Some y |})
    /\ (forall m e n exc,
          resolved = Ok m -> eastings = Some e -> northings = Some n ->
          CoordTransformer.survey_to_wgs84 E Transformer_from_crs e n epsg
          = Err (CoordTransformer.Library exc) ->
          emitted = Ui.failed_emit (exc_str exc))
    /\ (forall r, emitted = Ui.result_emit r ->
                  resolved = Ok (Ui.meta r)
                  /\ (Ui.lon r = None <-> Ui.lat r = None)).
Proof.
  intros E exc_str db net lib epsg eastings northings resolved emitted.
  unfold emitted, Ui.run. fold resolved.
  split; [|split; [|split; [|split]]].
  - intros text ->. reflexivity.
  - intros m -> [-> | ->]; [reflexivity|]. destruct eastings; reflexivity.
  - intros m e n x y -> -> -> ->. reflexivity.
  - intros m e n exc -> -> -> ->. reflexivity.
  - intros r. destruct resolved as [[text]|m]; [discriminate|].
    destruct eastings as [e|], northings as [n|];
      try (intros H; injection H as <-; repeat split; reflexivity).
    destruct (CoordTransformer.survey_to_wgs84 E lib e n epsg) as [[exc|]|[x y]];
      try discriminate.
    intros H; injection H as <-. repeat split; discriminate.
Qed.

Lemma lookup_worker_outcomes_witness :
  let db := fun _ : Z =>
    Returns {| CrsMetadata.name := "ETRS89 / TM35FIN(E,N)";
               CrsMetadata.remarks := None;
               CrsMetadata.geodetic_crs := Returns None;
               CrsMetadata.datum := Returns None;
               CrsMetadata.coordinate_operation := Returns None |} in
  let net := fun _ : string => @Raises CrsMetadata.Response in
  let lib := fun (_ _ : string) (_ : bool) =>
               @Err string (CoordTransformer.Transformer string) "unknown CRS" in
  Ui.run string (fun s => s) db net lib 3067 (Some 385000%float) (Some 6672000%float)
  = Ui.failed_emit "unknown CRS".
Proof.
  intros db net lib.
  destruct (lookup_worker_outcomes string (fun s => s) db net lib 3067
              (Some 385000%float) (Some 6672000%float)) as (_ & _ & _ & H & _).
  apply (H (CrsMetadata._from_pyproj db 3067) 385000%float 6672000%float "unknown CRS");
    reflexivity.
Defined.
